(** * Video re-framing tool: frame compositor and capture orchestrator

    A shallow embedding of [src/components/VideoEditor.tsx] and of the
    types it imports ([AspectRatio], [ScaleMode], [ProcessingState],
    [VideoConfig], [RESOLUTIONS]).

    JavaScript numbers are IEEE 754 binary64 values.  The arithmetic of the
    component is written once, over an interface [JSNumber], and read at two
    instances: [binary64] (Rocq's primitive floats, the arithmetic the
    browser performs) and [exact] (the rationals, the arithmetic the
    geometry is designed with). *)

From Stdlib Require Import ZArith QArith Qround Qminmax Floats.
From Stdlib Require Import List Sorted String Ascii Bool Lia Lqa.
Import ListNotations.

Set Implicit Arguments.

(** ** JavaScript numbers *)

Class JSNumber (num : Type) : Type := {
  lit : Z -> num;                       (* an integer literal *)
  add : num -> num -> num;
  sub : num -> num -> num;
  mul : num -> num -> num;
  div : num -> num -> num;
  Math_max : num -> num -> num;
  Math_min : num -> num -> num;
  Math_round : num -> num;
  isNaN : num -> bool;
  isFinite : num -> bool;               (* Number.isFinite *)
  falsy : num -> bool                   (* ToBoolean(x) is false *)
}.

Declare Scope js_scope.
Delimit Scope js_scope with js.
Infix "+" := add : js_scope.
Infix "-" := sub : js_scope.
Infix "*" := mul : js_scope.
Infix "/" := div : js_scope.

(** [a || b] on numbers. *)
Definition or_else {num} `{JSNumber num} (a : option num) (b : num) : num :=
  match a with
  | Some x => if falsy x then b else x
  | None => b                           (* undefined is falsy *)
  end.

Module Binary64.

(** An integer as a number; exact below 2^53 in absolute value. *)
Definition of_Z (z : Z) : float :=
  match z with
  | Z0 => PrimFloat.zero
  | Zpos _ => PrimFloat.of_uint63 (Uint63.of_Z z)
  | Zneg _ => PrimFloat.opp (PrimFloat.of_uint63 (Uint63.of_Z (Z.opp z)))
  end.

(** [Math.max]: NaN if either argument is NaN, and [+0] is larger than
    [-0]. *)
Definition max (a b : float) : float :=
  if PrimFloat.is_nan a || PrimFloat.is_nan b then PrimFloat.nan
  else if PrimFloat.ltb a b then b
  else if PrimFloat.ltb b a then a
  else if PrimFloat.get_sign a then b else a.

Definition min (a b : float) : float :=
  if PrimFloat.is_nan a || PrimFloat.is_nan b then PrimFloat.nan
  else if PrimFloat.ltb a b then a
  else if PrimFloat.ltb b a then b
  else if PrimFloat.get_sign a then a else b.

(** [Math.round]: the integer nearest to [x], ties towards +infinity;
    NaN, the infinities, the zeros and the integers are returned
    unchanged, and a result of zero keeps the sign of [x]. *)
Definition round (x : float) : float :=
  match Prim2SF x with
  | S754_finite s m e =>
      if (0 <=? e)%Z then x
      else
        let n := if s then Zneg m else Zpos m in
        let z := ((2 * n + 2 ^ (- e)) / 2 ^ (1 - e))%Z in
        if (z =? 0)%Z
        then (if s then PrimFloat.neg_zero else PrimFloat.zero)
        else of_Z z
  | _ => x
  end.

Definition falsy (x : float) : bool :=
  PrimFloat.is_zero x || PrimFloat.is_nan x.

End Binary64.

#[export] Instance binary64 : JSNumber float := {
  lit := Binary64.of_Z;
  add := PrimFloat.add;
  sub := PrimFloat.sub;
  mul := PrimFloat.mul;
  div := PrimFloat.div;
  Math_max := Binary64.max;
  Math_min := Binary64.min;
  Math_round := Binary64.round;
  isNaN := PrimFloat.is_nan;
  isFinite := PrimFloat.is_finite;
  falsy := Binary64.falsy
}.

(** The same operations without rounding.  There is no NaN among the
    rationals, and division by zero (which the theorems below exclude) is
    [0] as in [QArith]. *)
#[export] Instance exact : JSNumber Q := {
  lit := inject_Z;
  add := Qplus;
  sub := Qminus;
  mul := Qmult;
  div := Qdiv;
  Math_max := Qmax;
  Math_min := Qmin;
  Math_round := fun x => inject_Z (Qfloor (x + (1 # 2)));
  isNaN := fun _ => false;
  isFinite := fun _ => true;
  falsy := fun x => Qeq_bool x 0
}.

(** ** Types ([types.ts]) *)

Inductive AspectRatio : Type :=
  | SQUARE | PORTRAIT | LANDSCAPE | CLASSIC | VERTICAL_4_5 | CUSTOM.

Inductive ScaleMode : Type := CONTAIN | STRETCH | COVER.

Inductive ProcessingState : Type :=
  | IDLE | GENERATING_BACKGROUND | RECORDING | COMPLETED | ERROR.

Definition ProcessingState_eqb (a b : ProcessingState) : bool :=
  match a, b with
  | IDLE, IDLE | GENERATING_BACKGROUND, GENERATING_BACKGROUND
  | RECORDING, RECORDING | COMPLETED, COMPLETED | ERROR, ERROR => true
  | _, _ => false
  end.

Section Types.

Context {num : Type} `{JSNumber num}.

Record Dimensions : Type := { width : num; height : num }.

Record VideoConfig : Type := {
  aspectRatio : AspectRatio;
  scaleMode : ScaleMode;
  backgroundColor : string;
  useAIBackground : bool;
  aiPrompt : string;
  customWidth : option num;
  customHeight : option num;
  maintainAspectRatio : option bool
}.

(** [RESOLUTIONS] has an entry for every preset and none for [CUSTOM]. *)
Definition RESOLUTIONS (r : AspectRatio) : option Dimensions :=
  match r with
  | SQUARE => Some {| width := lit 1080; height := lit 1080 |}
  | PORTRAIT => Some {| width := lit 1080; height := lit 1920 |}
  | LANDSCAPE => Some {| width := lit 1920; height := lit 1080 |}
  | CLASSIC => Some {| width := lit 1440; height := lit 1080 |}
  | VERTICAL_4_5 => Some {| width := lit 1080; height := lit 1350 |}
  | CUSTOM => None
  end.

(** [getTargetDimensions]: the lookup in [RESOLUTIONS] is only reached
    for a preset. *)
Definition getTargetDimensions (config : VideoConfig) : Dimensions :=
  match RESOLUTIONS (aspectRatio config) with
  | None =>
      {| width := or_else (customWidth config) (lit 1920);
         height := or_else (customHeight config) (lit 1080) |}
  | Some d => d
  end.

End Types.

Arguments Dimensions num : clear implicits.
Arguments VideoConfig num : clear implicits.

(** ** Custom dimensions with the aspect-ratio lock *)

Inductive Dimension : Type := Width | Height.

Section Editor.

Context {num : Type} `{JSNumber num}.
Local Open Scope js_scope.

(** The part of the [<video>] element the component reads and writes. *)
Record Video : Type := {
  videoWidth : num;
  videoHeight : num;
  duration : num;
  currentTime : num;
  muted : bool;
  v_volume : num;                     (* video.volume *)
  ended : bool
}.

Definition set_customWidth (c : VideoConfig num) (v : num) :=
  {| aspectRatio := aspectRatio c; scaleMode := scaleMode c;
     backgroundColor := backgroundColor c;
     useAIBackground := useAIBackground c; aiPrompt := aiPrompt c;
     customWidth := Some v; customHeight := customHeight c;
     maintainAspectRatio := maintainAspectRatio c |}.

Definition set_customHeight (c : VideoConfig num) (v : num) :=
  {| aspectRatio := aspectRatio c; scaleMode := scaleMode c;
     backgroundColor := backgroundColor c;
     useAIBackground := useAIBackground c; aiPrompt := aiPrompt c;
     customWidth := customWidth c; customHeight := Some v;
     maintainAspectRatio := maintainAspectRatio c |}.

(** [handleCustomDimensionChange(dimension, value)], from
    [numericValue = Number(value)] on.  The result is the argument of
    [onConfigChange], or [None] when the handler returns without calling
    it; [videoRef] is [videoRef.current]. *)
Definition handleCustomDimensionChange (config : VideoConfig num)
    (videoRef : option Video) (dimension : Dimension) (numericValue : num)
    : option (VideoConfig num) :=
  if isNaN numericValue then None
  else
    let newConfig :=
      match dimension with
      | Width => set_customWidth config numericValue
      | Height => set_customHeight config numericValue
      end in
    match maintainAspectRatio config, videoRef with
    | Some true, Some vid =>
        let ratio := videoWidth vid / videoHeight vid in
        match dimension with
        | Width =>
            Some (set_customHeight newConfig
                    (Math_round (numericValue / ratio)))
        | Height =>
            Some (set_customWidth newConfig
                    (Math_round (numericValue * ratio)))
        end
    | _, _ => Some newConfig
    end.

(** The configuration the parent holds after the handler has run. *)
Definition configAfter (config : VideoConfig num)
    (change : option (VideoConfig num)) : VideoConfig num :=
  match change with
  | Some c => c
  | None => config
  end.

(** ** The frame compositor ([drawFrame]) *)

Record Rect : Type := { x : num; y : num; w : num; h : num }.

(** The rectangle the video frame is drawn into: the [w], [h], [x], [y]
    of [drawFrame] when it reaches [ctx.drawImage(video, x, y, w, h)]. *)
Definition drawRect (mode : ScaleMode) (targetDim : Dimensions num)
    (video : Video) : Rect :=
  match mode with
  | STRETCH =>
      {| x := lit 0; y := lit 0;
         w := width targetDim; h := height targetDim |}
  | COVER =>
      let scale := Math_max (width targetDim / videoWidth video)
                            (height targetDim / videoHeight video) in
      let w := videoWidth video * scale in
      let h := videoHeight video * scale in
      {| x := (width targetDim - w) / lit 2;
         y := (height targetDim - h) / lit 2;
         w := w; h := h |}
  | CONTAIN =>
      let scale := Math_min (width targetDim / videoWidth video)
                            (height targetDim / videoHeight video) in
      let w := videoWidth video * scale in
      let h := videoHeight video * scale in
      {| x := (width targetDim - w) / lit 2;
         y := (height targetDim - h) / lit 2;
         w := w; h := h |}
  end.

(** The scale factor of each mode, as [drawFrame] computes it. *)
Definition coverScale (targetDim : Dimensions num) (video : Video) : num :=
  Math_max (width targetDim / videoWidth video)
           (height targetDim / videoHeight video).

Definition containScale (targetDim : Dimensions num) (video : Video) : num :=
  Math_min (width targetDim / videoWidth video)
           (height targetDim / videoHeight video).

End Editor.

Arguments Video num : clear implicits.
Arguments Rect num : clear implicits.

(** ** The 2D context [drawFrame] paints on

    The browser's rasteriser is outside the repository: it is an interface
    here.  [fillRectOn style shadow rect px] and
    [drawImageOn image shadow rect px] are the pixels after
    [ctx.fillRect] and [ctx.drawImage] on the pixels [px], under the
    fill style and shadow settings current at the call; [validColor]
    tells the strings the [fillStyle] setter accepts (it ignores the
    others). *)

Section Canvas.

Context {num : Type} `{JSNumber num}.
Local Open Scope js_scope.

Record Shadow : Type := {
  shadowColor : string;
  shadowBlur : num;
  shadowOffsetX : num;
  shadowOffsetY : num
}.

Class Canvas2D (Pix Img : Type) : Type := {
  validColor : string -> bool;
  fillRectOn : string -> Shadow -> Rect num -> Pix -> Pix;
  drawImageOn : Img -> Shadow -> Rect num -> Pix -> Pix
}.

Context {Pix Img : Type} `{Canvas2D Pix Img}.

Record Context2D : Type := {
  pixels : Pix;
  fillStyle : string;
  shadow : Shadow
}.

(** A decoded image: [img.width], [img.height] and its content. *)
Record Image : Type := { i_width : num; i_height : num; raster : Img }.

Definition set_fillStyle (style : string) (ctx : Context2D) : Context2D :=
  if validColor style
  then {| pixels := pixels ctx; fillStyle := style; shadow := shadow ctx |}
  else ctx.

Definition set_shadow (s : Shadow) (ctx : Context2D) : Context2D :=
  {| pixels := pixels ctx; fillStyle := fillStyle ctx; shadow := s |}.

Definition fillRect (r : Rect num) (ctx : Context2D) : Context2D :=
  {| pixels := fillRectOn (fillStyle ctx) (shadow ctx) r (pixels ctx);
     fillStyle := fillStyle ctx; shadow := shadow ctx |}.

Definition drawImage (img : Img) (r : Rect num) (ctx : Context2D)
    : Context2D :=
  {| pixels := drawImageOn img (shadow ctx) r (pixels ctx);
     fillStyle := fillStyle ctx; shadow := shadow ctx |}.

(** The shadow [drawFrame] sets in [CONTAIN] mode, and the one it leaves
    behind (also the shadow of a context nothing has been drawn on). *)
Definition dropShadow : Shadow :=
  {| shadowColor := "rgba(0, 0, 0, 0.5)"; shadowBlur := lit 20;
     shadowOffsetX := lit 0; shadowOffsetY := lit 10 |}.

Definition noShadow : Shadow :=
  {| shadowColor := "transparent"; shadowBlur := lit 0;
     shadowOffsetX := lit 0; shadowOffsetY := lit 0 |}.

Definition fullTarget (targetDim : Dimensions num) : Rect num :=
  {| x := lit 0; y := lit 0;
     w := width targetDim; h := height targetDim |}.

(** The rectangle of the background image: cover-scaled and centred. *)
Definition backgroundRect (targetDim : Dimensions num) (img : Image)
    : Rect num :=
  let scale := Math_max (width targetDim / i_width img)
                        (height targetDim / i_height img) in
  {| x := (width targetDim / lit 2) - (i_width img / lit 2) * scale;
     y := (height targetDim / lit 2) - (i_height img / lit 2) * scale;
     w := i_width img * scale;
     h := i_height img * scale |}.

(** [drawFrame], once the video, the canvas and its context are there, in
    its three steps; [frame] is the current frame of [video]. *)

(** Clear canvas. *)
Definition clearCanvas (config : VideoConfig num) (ctx : Context2D)
    : Context2D :=
  let targetDim := getTargetDimensions config in
  let ctx := set_fillStyle (backgroundColor config) ctx in
  fillRect (fullTarget targetDim) ctx.

(** Draw Background (Image or Color), in [CONTAIN] mode only. *)
Definition drawBackground (config : VideoConfig num)
    (aiBgImage : option Image) (ctx : Context2D) : Context2D :=
  let targetDim := getTargetDimensions config in
  match scaleMode config with
  | CONTAIN =>
      match useAIBackground config, aiBgImage with
      | true, Some img =>
          let ctx := drawImage (raster img)
                       (backgroundRect targetDim img) ctx in
          let ctx := set_fillStyle "rgba(0,0,0,0.3)" ctx in
          fillRect (fullTarget targetDim) ctx
      | _, _ =>
          let ctx := set_fillStyle (backgroundColor config) ctx in
          fillRect (fullTarget targetDim) ctx
      end
  | _ => ctx
  end.

(** The video frame in its rectangle, under the drop shadow in
    [CONTAIN] mode, and the shadow reset. *)
Definition drawVideo (config : VideoConfig num) (video : Video num)
    (frame : Img) (ctx : Context2D) : Context2D :=
  let targetDim := getTargetDimensions config in
  let r := drawRect (scaleMode config) targetDim video in
  let ctx :=
    match scaleMode config with
    | CONTAIN => set_shadow dropShadow ctx
    | _ => ctx
    end in
  let ctx := drawImage frame r ctx in
  set_shadow noShadow ctx.

Definition drawFrame (config : VideoConfig num) (aiBgImage : option Image)
    (video : Video num) (frame : Img) (ctx : Context2D) : Context2D :=
  drawVideo config video frame
    (drawBackground config aiBgImage (clearCanvas config ctx)).


End Canvas.

Arguments Shadow num : clear implicits.
Arguments Canvas2D num Pix Img : clear implicits.
Arguments Context2D num Pix : clear implicits.
Arguments Image num Img : clear implicits.

(** ** Strings: [String.prototype.trim] and truthiness

    Characters are code points below 256; the white space among them is
    TAB, LF, VT, FF, CR, the space and the no-break space. *)

Definition isWhiteSpace (c : ascii) : bool :=
  let n := nat_of_ascii c in
  ((9 <=? n) && (n <=? 13) || (n =? 32) || (n =? 160))%nat.

Fixpoint trimStart (s : list ascii) : list ascii :=
  match s with
  | c :: rest => if isWhiteSpace c then trimStart rest else s
  | [] => []
  end.

Definition trim (s : string) : string :=
  string_of_list_ascii
    (rev (trimStart (rev (trimStart (list_ascii_of_string s))))).

(** ToBoolean of a string: only the empty string is falsy. *)
Definition truthy (s : string) : bool :=
  match s with
  | EmptyString => false
  | String _ _ => true
  end.

(** ** The capture orchestrator

    The component's React state, the [<video>] element and the media
    recorders it has created are one record; every handler is a
    computation in the state monad over it.  [stateLog] and [progressLog]
    record, oldest first, the arguments of every [setProcessingState] and
    [setProgress] call. *)

Section Orchestrator.

Context {num : Type} `{JSNumber num}.
Context {Img : Type}.
Local Open Scope js_scope.

Record Blob : Type := { size : N; type : string }.

(** A [MediaRecorder] with the variables its handlers close over:
    [chunks], [selectedMimeType], and the [volume] and [isMuted] of the
    render [startProcessing] belongs to. *)
Record Recorder : Type := {
  mimeType : string;
  chunks : list Blob;
  recording : bool;                   (* state === 'recording' *)
  savedVolume : num;
  savedMuted : bool
}.

Record Component : Type := {
  processingState : ProcessingState;
  progress : num;
  downloadUrl : option Blob;          (* an object URL of the blob *)
  recordingMimeType : string;
  aiBgImage : option (Image num Img);
  errorMsg : option string;
  isPlaying : bool;
  isMuted : bool;
  volume : num;
  video : Video num;
  recorders : list Recorder;          (* in the order of creation *)
  stateLog : list ProcessingState;
  progressLog : list num
}.

Definition M (A : Type) : Type := Component -> A * Component.

Definition ret {A} (a : A) : M A := fun c => (a, c).

Definition bind {A B} (m : M A) (k : A -> M B) : M B :=
  fun c => let (a, c') := m c in k a c'.

Definition get : M Component := fun c => (c, c).

Definition exec {A} (m : M A) (c : Component) : Component := snd (m c).

Notation "x <- m ;; k" := (bind m (fun x => k))
  (at level 61, m at next level, right associativity).
Notation "m ;; k" := (bind m (fun _ => k))
  (at level 61, right associativity).

Definition setProcessingState (s : ProcessingState) : M unit := fun c =>
  (tt, {| processingState := s; progress := progress c;
          downloadUrl := downloadUrl c;
          recordingMimeType := recordingMimeType c;
          aiBgImage := aiBgImage c; errorMsg := errorMsg c;
          isPlaying := isPlaying c; isMuted := isMuted c;
          volume := volume c; video := video c;
          recorders := recorders c;
          stateLog := stateLog c ++ [s];
          progressLog := progressLog c |}).

Definition setProgress (p : num) : M unit := fun c =>
  (tt, {| processingState := processingState c; progress := p;
          downloadUrl := downloadUrl c;
          recordingMimeType := recordingMimeType c;
          aiBgImage := aiBgImage c; errorMsg := errorMsg c;
          isPlaying := isPlaying c; isMuted := isMuted c;
          volume := volume c; video := video c;
          recorders := recorders c;
          stateLog := stateLog c;
          progressLog := progressLog c ++ [p] |}).

Definition setDownloadUrl (u : option Blob) : M unit := fun c =>
  (tt, {| processingState := processingState c; progress := progress c;
          downloadUrl := u;
          recordingMimeType := recordingMimeType c;
          aiBgImage := aiBgImage c; errorMsg := errorMsg c;
          isPlaying := isPlaying c; isMuted := isMuted c;
          volume := volume c; video := video c;
          recorders := recorders c;
          stateLog := stateLog c; progressLog := progressLog c |}).

Definition setRecordingMimeType (t : string) : M unit := fun c =>
  (tt, {| processingState := processingState c; progress := progress c;
          downloadUrl := downloadUrl c;
          recordingMimeType := t;
          aiBgImage := aiBgImage c; errorMsg := errorMsg c;
          isPlaying := isPlaying c; isMuted := isMuted c;
          volume := volume c; video := video c;
          recorders := recorders c;
          stateLog := stateLog c; progressLog := progressLog c |}).

Definition setAiBgImage (i : option (Image num Img)) : M unit := fun c =>
  (tt, {| processingState := processingState c; progress := progress c;
          downloadUrl := downloadUrl c;
          recordingMimeType := recordingMimeType c;
          aiBgImage := i; errorMsg := errorMsg c;
          isPlaying := isPlaying c; isMuted := isMuted c;
          volume := volume c; video := video c;
          recorders := recorders c;
          stateLog := stateLog c; progressLog := progressLog c |}).

Definition setErrorMsg (e : option string) : M unit := fun c =>
  (tt, {| processingState := processingState c; progress := progress c;
          downloadUrl := downloadUrl c;
          recordingMimeType := recordingMimeType c;
          aiBgImage := aiBgImage c; errorMsg := e;
          isPlaying := isPlaying c; isMuted := isMuted c;
          volume := volume c; video := video c;
          recorders := recorders c;
          stateLog := stateLog c; progressLog := progressLog c |}).

Definition setIsPlaying (b : bool) : M unit := fun c =>
  (tt, {| processingState := processingState c; progress := progress c;
          downloadUrl := downloadUrl c;
          recordingMimeType := recordingMimeType c;
          aiBgImage := aiBgImage c; errorMsg := errorMsg c;
          isPlaying := b; isMuted := isMuted c;
          volume := volume c; video := video c;
          recorders := recorders c;
          stateLog := stateLog c; progressLog := progressLog c |}).

Definition setVideo (v : Video num) : M unit := fun c =>
  (tt, {| processingState := processingState c; progress := progress c;
          downloadUrl := downloadUrl c;
          recordingMimeType := recordingMimeType c;
          aiBgImage := aiBgImage c; errorMsg := errorMsg c;
          isPlaying := isPlaying c; isMuted := isMuted c;
          volume := volume c; video := v;
          recorders := recorders c;
          stateLog := stateLog c; progressLog := progressLog c |}).

Definition setRecorders (rs : list Recorder) : M unit := fun c =>
  (tt, {| processingState := processingState c; progress := progress c;
          downloadUrl := downloadUrl c;
          recordingMimeType := recordingMimeType c;
          aiBgImage := aiBgImage c; errorMsg := errorMsg c;
          isPlaying := isPlaying c; isMuted := isMuted c;
          volume := volume c; video := video c;
          recorders := rs;
          stateLog := stateLog c; progressLog := progressLog c |}).

(** Assignments to the [<video>] element. *)
Definition seek (t : num) (v : Video num) : Video num :=
  {| videoWidth := videoWidth v; videoHeight := videoHeight v;
     duration := duration v; currentTime := t; muted := muted v;
     v_volume := v_volume v; ended := ended v |}.

Definition set_muted (b : bool) (v : Video num) : Video num :=
  {| videoWidth := videoWidth v; videoHeight := videoHeight v;
     duration := duration v; currentTime := currentTime v; muted := b;
     v_volume := v_volume v; ended := ended v |}.

Definition set_volume (x : num) (v : Video num) : Video num :=
  {| videoWidth := videoWidth v; videoHeight := videoHeight v;
     duration := duration v; currentTime := currentTime v;
     muted := muted v; v_volume := x; ended := ended v |}.

Definition set_ended (b : bool) (v : Video num) : Video num :=
  {| videoWidth := videoWidth v; videoHeight := videoHeight v;
     duration := duration v; currentTime := currentTime v;
     muted := muted v; v_volume := v_volume v; ended := b |}.

Definition modifyVideo (f : Video num -> Video num) : M unit :=
  c <- get ;; setVideo (f (video c)).

(** *** What the browser and the image service decide *)

(** [generateBackgroundImage] followed by the load of the image: the
    service rejects, the image loads, or the service answers and the
    image never fires [onload] (the promise of [img.onload] is never
    settled). *)
Inductive Generation : Type :=
  | Rejected
  | Loaded (img : Image num Img)
  | NeverLoads.

Record Env : Type := {
  refsReady : bool;         (* videoRef.current && canvasRef.current *)
  generateBackgroundImage : string -> Generation;
  isTypeSupported : string -> bool;   (* MediaRecorder.isTypeSupported *)
  playFulfils : bool        (* video.play(), when called, is fulfilled *)
}.

(** Whether an awaited call comes back. *)
Inductive Await : Type := Settled | Pending.

(** *** [generateAIBackground] *)

(** The prompt sent to the image service. *)
Definition sentPrompt (config : VideoConfig num) : string :=
  (aiPrompt config ++
   " texture, abstract background, high quality, seamless pattern style")%string.

Definition generateAIBackground (config : VideoConfig num) (env : Env)
    : M Await :=
  if negb (truthy (trim (aiPrompt config))) then ret Settled
  else
    setProcessingState GENERATING_BACKGROUND ;;
    setErrorMsg None ;;
    match generateBackgroundImage env (sentPrompt config) with
    | Loaded img =>
        setAiBgImage (Some img) ;;
        setProcessingState IDLE ;;
        ret Settled
    | Rejected =>
        setErrorMsg
          (Some "Failed to generate background. Check API Key or try again."%string) ;;
        setProcessingState IDLE ;;
        ret Settled
    | NeverLoads => ret Pending
    end.

(** *** [startProcessing] *)

Definition mimeTypes : list string :=
  [ "video/webm;codecs=vp9,opus"; "video/webm;codecs=vp8,opus";
    "video/webm"; "video/mp4" ]%string.

Definition selectMimeType (env : Env) : string :=
  match find (isTypeSupported env) mimeTypes with
  | Some t => t
  | None => "video/webm"%string
  end.

(** [new MediaRecorder(stream, { mimeType })] returns: it throws
    NotSupportedError on a type [MediaRecorder.isTypeSupported]
    refuses, which is the case of the fallback when nothing of the list
    is supported. *)
Definition constructs (env : Env) : bool :=
  isTypeSupported env (selectMimeType env).

(** The export reaches [video.play()] and the promise is fulfilled. *)
Definition playStarts (env : Env) : bool :=
  constructs env && playFulfils env.

Definition isContain (m : ScaleMode) : bool :=
  match m with CONTAIN => true | _ => false end.

Definition isNone {A} (o : option A) : bool :=
  match o with None => true | Some _ => false end.

(** Up to the point where the render loop is scheduled.  [new
    MediaRecorder(...)] and [mediaRecorder.start(1000)] append a
    recorder in the state 'recording'; the audio track of the stream does
    not show in the component's state.  Nothing catches the exception
    of the constructor: the function ends there, after the state
    updates it has made. *)
Definition startProcessing (config : VideoConfig num) (env : Env)
    : M unit :=
  if negb (refsReady env) then ret tt
  else
    setIsPlaying false ;;
    this <- get ;;                    (* the render of this closure *)
    a <- (if isContain (scaleMode config) && useAIBackground config
             && isNone (aiBgImage this) && truthy (aiPrompt config)
          then generateAIBackground config env
          else ret Settled) ;;
    match a with
    | Pending => ret tt
    | Settled =>
        setProcessingState RECORDING ;;
        setDownloadUrl None ;;
        setProgress (lit 0) ;;
        setErrorMsg None ;;
        let selectedMimeType := selectMimeType env in
        setRecordingMimeType selectedMimeType ;;
        if negb (isTypeSupported env selectedMimeType) then ret tt
        else
          c <- get ;;
          setRecorders
            (recorders c ++
             [ {| mimeType := selectedMimeType; chunks := [];
                  recording := true;
                  savedVolume := volume this;
                  savedMuted := isMuted this |} ]) ;;
          (* Prepare video for recording *)
          modifyVideo (seek (lit 0)) ;;
          modifyVideo (set_muted false) ;;
          modifyVideo (set_volume (lit 1 / lit 100)) ;;
          if playFulfils env then ret tt
          else
            setErrorMsg
              (Some "Could not play video for recording."%string) ;;
            setProcessingState IDLE
    end.

(** The main action of the page: the download link once the export is
    [COMPLETED] and has an artifact, otherwise the export button, whose
    [onClick] is [startProcessing] and which is [disabled] unless the
    state is [IDLE]. *)
Inductive MainAction : Type :=
  | DownloadLink (href : Blob)
  | ExportButton (disabled : bool).

Definition mainAction (c : Component) : MainAction :=
  match processingState c, downloadUrl c with
  | COMPLETED, Some url => DownloadLink url
  | s, _ => ExportButton (negb (ProcessingState_eqb s IDLE))
  end.

(** A click on the main action: a disabled button dispatches no click,
    and the link has no handler. *)
Definition clickExport (config : VideoConfig num) (env : Env) : M unit :=
  c <- get ;;
  match mainAction c with
  | ExportButton false => startProcessing config env
  | _ => ret tt
  end.

(** *** The recorder's handlers *)

Fixpoint updateNth {A} (n : nat) (f : A -> A) (l : list A) : list A :=
  match l, n with
  | [], _ => []
  | a :: l', O => f a :: l'
  | a :: l', S n' => a :: updateNth n' f l'
  end.

Definition pushChunk (b : Blob) (r : Recorder) : Recorder :=
  {| mimeType := mimeType r; chunks := chunks r ++ [b];
     recording := recording r;
     savedVolume := savedVolume r; savedMuted := savedMuted r |}.

Definition stopped (r : Recorder) : Recorder :=
  {| mimeType := mimeType r; chunks := chunks r;
     recording := false;
     savedVolume := savedVolume r; savedMuted := savedMuted r |}.

(** [mediaRecorder.ondataavailable] of the recorder number [id]. *)
Definition ondataavailable (id : nat) (data : option Blob) : M unit :=
  match data with
  | Some b =>
      if (0 <? size b)%N
      then c <- get ;; setRecorders (updateNth id (pushChunk b) (recorders c))
      else ret tt
  | None => ret tt
  end.

(** [new Blob(chunks, { type })]: the parts one after the other. *)
Definition bytes (parts : list Blob) : N :=
  fold_right N.add 0%N (map size parts).

Definition newBlob (parts : list Blob) (t : string) : Blob :=
  {| size := bytes parts; type := t |}.

Definition zeroBytes : string :=
  "Recording failed (0 bytes). Try a different browser or file.".

(** [mediaRecorder.onstop] of the recorder number [id].  The seek to
    the midpoint throws on a time that is not finite (a video without a
    known duration), and what follows it does not run. *)
Definition onstop (id : nat) : M unit :=
  c <- get ;;
  match nth_error (recorders c) id with
  | None => ret tt
  | Some r =>
      let blob := newBlob (chunks r) (mimeType r) in
      if (size blob =? 0)%N then
        setErrorMsg (Some zeroBytes) ;;
        setProcessingState IDLE
      else
        setDownloadUrl (Some blob) ;;
        setProcessingState COMPLETED ;;
        (* Restore video state *)
        if isFinite (duration (video c) / lit 2) then
          modifyVideo (fun v => seek (duration v / lit 2) v) ;;
          modifyVideo (set_volume (savedVolume r)) ;;
          modifyVideo (set_muted (savedMuted r)) ;;
          setIsPlaying false
        else ret tt
  end.

(** [mediaRecorder.stop()] behind the guard of the render loop's
    timeout: the recorder hands over what it still holds, then fires
    [onstop]. *)
Definition stopRecorder (id : nat) (last : option Blob) : M unit :=
  c <- get ;;
  match nth_error (recorders c) id with
  | Some r =>
      if recording r then
        setRecorders (updateNth id stopped (recorders c)) ;;
        ondataavailable id last ;;
        onstop id
      else ret tt
  | None => ret tt
  end.

(** *** The render loop *)

(** One video-frame callback: [metadata.mediaTime], and [video.ended] as
    the callback finds it. *)
Record Frame : Type := { mediaTime : num; atEnd : bool }.

(** [renderLoop]; the result tells whether it scheduled another
    iteration.  [drawFrame] paints the canvas and leaves the component's
    state alone; [processingStateRef] mirrors [processingState]. *)
Definition renderLoop (f : Frame) : M bool :=
  c <- get ;;
  if negb (ProcessingState_eqb (processingState c) RECORDING) then ret false
  else
    modifyVideo (set_ended (atEnd f)) ;;
    (* Update progress bar *)
    let pct := (mediaTime f / duration (video c)) * lit 100 in
    setProgress pct ;;
    if atEnd f then ret false else ret true.

(** The frames the browser announces, as long as the loop reschedules
    itself. *)
Fixpoint pump (frames : list Frame) : M unit :=
  match frames with
  | [] => ret tt
  | f :: rest =>
      again <- renderLoop f ;;
      if again then pump rest else ret tt
  end.

(** [handleSeekReset], the skip-back button of the preview. *)
Definition handleSeekReset : M unit := modifyVideo (seek (lit 0)).

(** *** One export, from the click to the recorder's stop

    What happens while the recorder number [id] records: its
    [dataavailable] events (one per timeslice) and the video-frame
    callbacks, in any order. *)
Inductive SessionEvent : Type :=
  | DataAvailable (data : option Blob)
  | FrameCallback (f : Frame).

Definition during (id : nat) (e : SessionEvent) : M unit :=
  match e with
  | DataAvailable data => ondataavailable id data
  | FrameCallback f => renderLoop f ;; ret tt
  end.

Fixpoint session (id : nat) (events : list SessionEvent) : M unit :=
  match events with
  | [] => ret tt
  | e :: rest => during id e ;; session id rest
  end.

Definition export (config : VideoConfig num) (env : Env)
    (events : list SessionEvent) (last : option Blob) : M unit :=
  c <- get ;;
  (* the number of the recorder this click creates *)
  let id := List.length (recorders c) in
  clickExport config env ;;
  session id events ;;
  stopRecorder id last.

(** The bytes the recorder delivers during the events. *)
Definition delivered (data : option Blob) : N :=
  match data with
  | Some b => size b
  | None => 0%N
  end.

Fixpoint captured (events : list SessionEvent) : N :=
  match events with
  | [] => 0%N
  | DataAvailable data :: rest => (delivered data + captured rest)%N
  | FrameCallback _ :: rest => captured rest
  end.


Definition percent (total : num) (f : Frame) : num :=
  (mediaTime f / total) * lit 100.

(** What the events of a session keep of the component, and the bytes
    they add to the recorder [id]: the invariant the proofs about
    [export] carry through a session. *)
Definition sessionStep (id : nat) (n : N) (c c' : Component) : Prop :=
  processingState c' = processingState c /\
  downloadUrl c' = downloadUrl c /\
  errorMsg c' = errorMsg c /\
  stateLog c' = stateLog c /\
  duration (video c') = duration (video c) /\
  forall r, nth_error (recorders c) id = Some r ->
    exists r', nth_error (recorders c') id = Some r' /\
      mimeType r' = mimeType r /\ recording r' = recording r /\
      savedVolume r' = savedVolume r /\ savedMuted r' = savedMuted r /\
      bytes (chunks r') = (bytes (chunks r) + n)%N.

End Orchestrator.

Arguments Blob : clear implicits.
Arguments Recorder num : clear implicits.
Arguments Component num Img : clear implicits.
Arguments Env num Img : clear implicits.
Arguments Generation num Img : clear implicits.
Arguments Frame num : clear implicits.
Arguments M num Img A : clear implicits.

(** ** A small rasteriser

    An instance of [Canvas2D] to run [drawFrame] on: a canvas of three
    grey pixels in a row (3 by 1), colours as a grey level 0..255 with an
    opacity in percent, source-over compositing rounded down to an integer
    level, a pixel painted when its centre lies in the rectangle, no
    shadows.  An image is one grey level. *)

Module Strip.

Definition Pix : Type := (Z * Z * Z)%type.

Definition colour (style : string) : option (Z * Z) :=
  if (style =? "#000000")%string then Some (0, 100)%Z
  else if (style =? "#ffffff")%string then Some (255, 100)%Z
  else if (style =? "rgba(0,0,0,0.3)")%string then Some (0, 30)%Z
  else if (style =? "rgba(255,255,255,0.5)")%string then Some (255, 50)%Z
  else None.

Definition Qltb (a b : Q) : bool := negb (Qle_bool b a).

(** The centre of the pixel number [i] is [(i + 1/2, 1/2)]. *)
Definition inside (r : Rect Q) (i : Z) : bool :=
  let cx := (inject_Z i + (1 # 2))%Q in
  let cy := (1 # 2)%Q in
  Qle_bool (x r) cx && Qltb cx (x r + w r)%Q
  && Qle_bool (y r) cy && Qltb cy (y r + h r)%Q.

Definition blend (grey alpha old : Z) : Z :=
  ((old * (100 - alpha) + grey * alpha) / 100)%Z.

Definition paint (r : Rect Q) (grey alpha : Z) (px : Pix) : Pix :=
  let '(a, b, c) := px in
  (if inside r 0 then blend grey alpha a else a,
   if inside r 1 then blend grey alpha b else b,
   if inside r 2 then blend grey alpha c else c).

#[global] Instance canvas : Canvas2D Q Pix Z := {
  validColor := fun style =>
    match colour style with Some _ => true | None => false end;
  fillRectOn := fun style _ r px =>
    match colour style with
    | Some (grey, alpha) => paint r grey alpha px
    | None => px
    end;
  drawImageOn := fun img _ r px => paint r img 100 px
}.

End Strip.

(** ** Concrete inputs *)

Module Scenario.

Section Inputs.

Context {num : Type} `{JSNumber num}.

(** A clip of ten seconds, its preview parked at the midpoint. *)
Definition clip (vw vh : Z) : Video num :=
  {| videoWidth := lit vw; videoHeight := lit vh; duration := lit 10;
     currentTime := lit 5; muted := false; v_volume := lit 1;
     ended := false |}.

Definition target (tw th : Z) : Dimensions num :=
  {| width := lit tw; height := lit th |}.

(** The configuration [App] starts with, under another preset, mode
    and AI background switch. *)
Definition preset (r : AspectRatio) (m : ScaleMode) (ai : bool)
    : VideoConfig num :=
  {| aspectRatio := r; scaleMode := m;
     backgroundColor := "#000000"; useAIBackground := ai;
     aiPrompt := "Cosmic nebula with purple and blue hues";
     customWidth := Some (lit 1920); customHeight := Some (lit 1080);
     maintainAspectRatio := Some true |}.

Definition custom (cw ch : Z) (lock : bool) : VideoConfig num :=
  {| aspectRatio := CUSTOM; scaleMode := CONTAIN;
     backgroundColor := "#000000"; useAIBackground := false;
     aiPrompt := "Cosmic nebula with purple and blue hues";
     customWidth := Some (lit cw); customHeight := Some (lit ch);
     maintainAspectRatio := Some lock |}.

(** The component as it is mounted on a clip, before any export. *)
Definition mounted (v : Video num) : Component num unit :=
  {| processingState := IDLE; progress := lit 0; downloadUrl := None;
     recordingMimeType := ""; aiBgImage := None; errorMsg := None;
     isPlaying := false; isMuted := false; volume := lit 1;
     video := v; recorders := []; stateLog := []; progressLog := [] |}.

(** A browser that records WebM and starts playback, and an image
    service that rejects. *)
Definition browser : Env num unit :=
  {| refsReady := true;
     generateBackgroundImage := fun _ => Rejected;
     isTypeSupported := fun t => (t =? "video/webm")%string;
     playFulfils := true |}.

Definition frame (t : Z) (last : bool) : Frame num :=
  {| mediaTime := lit t; atEnd := last |}.

End Inputs.

Definition chunk (n : N) : option Blob :=
  Some {| size := n; type := "video/webm" |}.

(** Frame sizes of cameras, screens and broadcast formats, each taken in
    both orientations, and the five presets. *)
Definition sizes : list (Z * Z) :=
  [ (128, 96); (160, 120); (176, 144); (256, 144); (320, 240);
    (352, 288); (426, 240); (480, 270); (480, 320); (480, 360);
    (568, 320); (640, 360); (640, 480); (720, 480); (720, 576);
    (768, 432); (800, 600); (848, 480); (854, 480); (960, 540);
    (960, 640); (1024, 576); (1024, 768); (1136, 640); (1280, 592);
    (1280, 720); (1334, 750); (1366, 768); (1440, 1080); (1600, 720);
    (1600, 900); (1920, 1080); (2048, 1080); (2208, 1242); (2340, 1080);
    (2400, 1080); (2436, 1125); (2532, 1170); (2560, 1080); (2560, 1440);
    (2688, 1242); (2778, 1284); (3120, 1440); (3840, 2160); (4096, 2160);
    (1080, 1080); (1350, 1080) ]%Z.

Definition sources : list (Video float) :=
  map (fun s => clip (fst s) (snd s)) sizes
  ++ map (fun s => clip (snd s) (fst s)) sizes.

Definition presets : list AspectRatio :=
  [SQUARE; PORTRAIT; LANDSCAPE; CLASSIC; VERTICAL_4_5].

(** [a <= b + eps] in binary64. *)
Definition upTo (eps a b : float) : bool :=
  PrimFloat.leb a (PrimFloat.add b eps).

(** The cover rectangle reaches the target and the contain rectangle
    stays within it, up to [eps] of a pixel. *)
Definition fitsUpTo (eps : float) (r : AspectRatio) (v : Video float)
    : bool :=
  let T := getTargetDimensions (preset r STRETCH false) in
  let cover := drawRect COVER T v in
  let contain := drawRect CONTAIN T v in
  upTo eps (width T) (w cover) && upTo eps (height T) (h cover)
  && upTo eps (w contain) (width T) && upTo eps (h contain) (height T)
  && upTo eps 0%float (x contain) && upTo eps 0%float (y contain).

(** A strip canvas nothing has been drawn on. *)
Definition blank : Context2D Q Strip.Pix :=
  {| pixels := (0, 0, 0)%Z; fillStyle := "#000000"; shadow := noShadow |}.

(** A custom target of 3 by 1 with the background [bg]. *)
Definition strip (bg : string) : VideoConfig Q :=
  {| aspectRatio := CUSTOM; scaleMode := CONTAIN;
     backgroundColor := bg; useAIBackground := false;
     aiPrompt := ""; customWidth := Some (inject_Z 3);
     customHeight := Some (inject_Z 1);
     maintainAspectRatio := Some false |}.

End Scenario.

(** * The rest of the component and of the application *)

(** ** Comparisons *)

Class JSOrder (num : Type) : Type := {
  lt : num -> num -> bool               (* a < b *)
}.

#[export] Instance binary64_order : JSOrder float := {
  lt := PrimFloat.ltb
}.

#[export] Instance exact_order : JSOrder Q := {
  lt := Strip.Qltb
}.

(** ** Playback controls, the reset button and the file name *)

Section Controls.

Context {num : Type} `{JSNumber num} `{JSOrder num}.
Context {Img : Type}.
Local Open Scope js_scope.

Notation "x <- m ;; k" := (bind m (fun x => k))
  (at level 61, m at next level, right associativity).
Notation "m ;; k" := (bind m (fun _ => k))
  (at level 61, right associativity).

Local Abbreviation Component := (Component num Img).
Local Abbreviation M := (M num Img).

Definition setIsMuted (b : bool) : M unit := fun c =>
  (tt, {| processingState := processingState c; progress := progress c;
          downloadUrl := downloadUrl c;
          recordingMimeType := recordingMimeType c;
          aiBgImage := aiBgImage c; errorMsg := errorMsg c;
          isPlaying := isPlaying c; isMuted := b;
          volume := volume c; video := video c;
          recorders := recorders c;
          stateLog := stateLog c; progressLog := progressLog c |}).

Definition setVolume (x : num) : M unit := fun c =>
  (tt, {| processingState := processingState c; progress := progress c;
          downloadUrl := downloadUrl c;
          recordingMimeType := recordingMimeType c;
          aiBgImage := aiBgImage c; errorMsg := errorMsg c;
          isPlaying := isPlaying c; isMuted := isMuted c;
          volume := x; video := video c;
          recorders := recorders c;
          stateLog := stateLog c; progressLog := progressLog c |}).

(** [isProcessing]: the playback controls are disabled while it holds. *)
Definition isProcessing (c : Component) : bool :=
  ProcessingState_eqb (processingState c) RECORDING
  || ProcessingState_eqb (processingState c) GENERATING_BACKGROUND.

(** [toggleMute]. *)
Definition toggleMute : M unit :=
  c <- get ;;
  let newMuted := negb (isMuted c) in
  modifyVideo (set_muted newMuted) ;;
  setIsMuted newMuted.

(** The values [video.volume] accepts; the setter throws on the
    others. *)
Definition validVolume (x : num) : bool :=
  negb (isNaN x) && negb (lt x (lit 0)) && negb (lt (lit 1) x).

(** [handleVolumeChange], from [newVolume = parseFloat(e.target.value)]
    on. *)
Definition handleVolumeChange (newVolume : num) : M unit :=
  c <- get ;;
  setVolume newVolume ;;
  if validVolume newVolume then
    modifyVideo (set_volume newVolume) ;;
    if isMuted c && lt (lit 0) newVolume then
      modifyVideo (set_muted false) ;;
      setIsMuted false
    else ret tt
  else ret tt.                        (* the assignment has thrown *)

(** The controls as the page offers them: disabled while processing. *)
Inductive Control : Type :=
  | MuteButton
  | VolumeSlider (newVolume : num)
  | SkipBack.

Definition operate (k : Control) : M unit :=
  c <- get ;;
  if isProcessing c then ret tt
  else
    match k with
    | MuteButton => toggleMute
    | VolumeSlider newVolume => handleVolumeChange newVolume
    | SkipBack => handleSeekReset
    end.

(** A range input hands over values within its [min] and [max]. *)
Definition withinRange (k : Control) : bool :=
  match k with
  | VolumeSlider newVolume => validVolume newVolume
  | _ => true
  end.

Fixpoint operateAll (ks : list Control) : M unit :=
  match ks with
  | [] => ret tt
  | k :: rest => operate k ;; operateAll rest
  end.

(** The video plays what the controls show. *)
Definition audioInSync (c : Component) : Prop :=
  v_volume (video c) = volume c /\ muted (video c) = isMuted c.

(** [video.currentTime = t] where nothing follows the assignment: the
    setter throws on a value that is not finite, and the time stays. *)
Definition set_currentTime (t : num) (v : Video num) : Video num :=
  if isFinite t then seek t v else v.

(** The [onClick] of the button shown once the export is [COMPLETED]
    ("generate another"), and a click on it. *)
Definition generateAnother : M unit :=
  setDownloadUrl None ;;
  setProcessingState IDLE ;;
  setProgress (lit 0) ;;
  (* Seek back to middle for preview *)
  modifyVideo (fun v => set_currentTime (duration v / lit 2) v).

Definition clickGenerateAnother : M unit :=
  c <- get ;;
  if ProcessingState_eqb (processingState c) COMPLETED
  then generateAnother
  else ret tt.

(** [String.prototype.includes]. *)
Definition includes (s sub : string) : bool :=
  match String.index 0 sub s with
  | Some _ => true
  | None => false
  end.

(** [fileExtension] and the [download] attribute of the link. *)
Definition fileExtension (c : Component) : string :=
  if includes (recordingMimeType c) "mp4" then "mp4"%string
  else "webm"%string.

Definition downloadName (c : Component) : string :=
  ("resized-video-pro." ++ fileExtension c)%string.

(** The chunks a session adds to its recorder: the data that is there
    and not empty, in the order of arrival. *)
Fixpoint kept (events : list (SessionEvent (num := num))) : list Blob :=
  match events with
  | [] => []
  | DataAvailable (Some b) :: rest =>
      if (0 <? size b)%N then b :: kept rest else kept rest
  | _ :: rest => kept rest
  end.





Definition pushChunks (bs : list Blob) (r : Recorder num) : Recorder num :=
  fold_left (fun r b => pushChunk b r) bs r.

(** What the events of a session never touch: the user's audio
    settings, the audio and the position of the video, the recorded
    type, the background image and the play button. *)
Definition sessionKeeps (c c' : Component) : Prop :=
  volume c' = volume c /\ isMuted c' = isMuted c /\
  recordingMimeType c' = recordingMimeType c /\
  aiBgImage c' = aiBgImage c /\ isPlaying c' = isPlaying c /\
  v_volume (video c') = v_volume (video c) /\
  muted (video c') = muted (video c) /\
  currentTime (video c') = currentTime (video c).

End Controls.

(** ** The image service ([services/geminiService.ts]) *)

Module GeminiService.

(** A part of the model's answer: [part.inlineData] with its
    [mimeType] and [data], each possibly missing. *)
Record InlineData : Type := {
  mimeType : option string;
  data : option string
}.

Record Part : Type := { inlineData : option InlineData }.

(** [ai.models.generateContent(...)]: the call rejects, or it answers;
    [parts] is [response.candidates?.[0]?.content?.parts]. *)
Inductive Reply : Type :=
  | CallRejects
  | Answer (parts : option (list Part)).

(** [a || b] on strings. *)
Definition orString (a : option string) (b : string) : string :=
  match a with
  | Some s => if truthy s then s else b
  | None => b
  end.

Definition hasData (p : Part) : option (InlineData * string) :=
  match inlineData p with
  | Some d =>
      match data d with
      | Some s => if truthy s then Some (d, s) else None
      | None => None
      end
  | None => None
  end.

Definition dataUrl (d : InlineData) (s : string) : string :=
  ("data:" ++ orString (mimeType d) "image/png" ++ ";base64," ++ s)%string.

(** The loop over [parts]: the first part with inline data wins. *)
Fixpoint extractImage (parts : list Part) : option string :=
  match parts with
  | [] => None
  | p :: rest =>
      match hasData p with
      | Some (d, s) => Some (dataUrl d s)
      | None => extractImage rest
      end
  end.

(** [generateBackgroundImage]: the data URL it resolves to, or [None]
    when it throws. *)
Definition generateBackgroundImage (apiKey : string) (reply : Reply)
    : option string :=
  if negb (truthy apiKey) then None   (* API Key not found *)
  else
    match reply with
    | CallRejects => None
    | Answer None => None             (* No image data received *)
    | Answer (Some parts) => extractImage parts
    end.

End GeminiService.

(** ** The application ([App.tsx]) *)

Section Application.

Context {num : Type} `{JSNumber num}.

Record File : Type := { fileName : string; fileType : string }.

Record App : Type := {
  file : option File;
  pasteError : option string;
  config : VideoConfig num
}.

(** The configuration [App] starts with and [handleReset] returns to. *)
Definition initialConfig : VideoConfig num :=
  {| aspectRatio := PORTRAIT; scaleMode := CONTAIN;
     backgroundColor := "#000000"; useAIBackground := false;
     aiPrompt := "Cosmic nebula with purple and blue hues";
     customWidth := Some (lit 1920); customHeight := Some (lit 1080);
     maintainAspectRatio := Some true |}.

Definition initialApp : App :=
  {| file := None; pasteError := None; config := initialConfig |}.

Definition set_aspectRatio (c : VideoConfig num) (r : AspectRatio) :=
  {| aspectRatio := r; scaleMode := scaleMode c;
     backgroundColor := backgroundColor c;
     useAIBackground := useAIBackground c; aiPrompt := aiPrompt c;
     customWidth := customWidth c; customHeight := customHeight c;
     maintainAspectRatio := maintainAspectRatio c |}.

Definition set_scaleMode (c : VideoConfig num) (m : ScaleMode) :=
  {| aspectRatio := aspectRatio c; scaleMode := m;
     backgroundColor := backgroundColor c;
     useAIBackground := useAIBackground c; aiPrompt := aiPrompt c;
     customWidth := customWidth c; customHeight := customHeight c;
     maintainAspectRatio := maintainAspectRatio c |}.

Definition set_maintainAspectRatio (c : VideoConfig num) (b : bool) :=
  {| aspectRatio := aspectRatio c; scaleMode := scaleMode c;
     backgroundColor := backgroundColor c;
     useAIBackground := useAIBackground c; aiPrompt := aiPrompt c;
     customWidth := customWidth c; customHeight := customHeight c;
     maintainAspectRatio := Some b |}.

(** The metadata of a file, as the probing [<video>] element reports
    it: [videoWidth] and [videoHeight], or [None] when it fires
    [onerror]. *)
Definition Metadata : Type := File -> option (num * num).

(** [processAndSetFile], with the handler that fires. *)
Definition processAndSetFile (probe : Metadata) (videoFile : File)
    (a : App) : App :=
  match probe videoFile with
  | Some (vw, vh) =>
      {| file := Some videoFile; pasteError := None;
         config :=
           set_maintainAspectRatio
             (set_customHeight (set_customWidth (config a) vw) vh) true |}
  | None =>
      {| file := file a;
         pasteError := Some "Failed to load video metadata."%string;
         config := config a |}
  end.

(** A paste: the tag of [e.target], and [e.clipboardData] with its
    files and the number of its items. *)
Record Clipboard : Type := { files : list File; items : nat }.

Record PasteEvent : Type := {
  targetTag : string;
  clipboardData : option Clipboard
}.

Definition setPasteError (msg : string) (a : App) : App :=
  {| file := file a; pasteError := Some msg; config := config a |}.

(** [handlePaste]. *)
Definition handlePaste (probe : Metadata) (e : PasteEvent) (a : App)
    : App :=
  if (targetTag e =? "INPUT")%string then a
  else
    match clipboardData e with
    | Some {| files := pastedFile :: _ |} =>
        if String.prefix "video/" (fileType pastedFile)
        then processAndSetFile probe pastedFile a
        else setPasteError
               "The pasted content is not a supported video file." a
    | other =>
        match file a, other with
        | None, Some {| items := S _ |} =>
            setPasteError "No video file detected in clipboard." a
        | _, _ => a
        end
    end.

(** [handleFileChange], on [e.target.files]. *)
Definition handleFileChange (probe : Metadata)
    (chosen : option (list File)) (a : App) : App :=
  match chosen with
  | Some (f :: _) => processAndSetFile probe f a
  | _ => a
  end.

(** [handleReset]. *)
Definition handleReset (a : App) : App := initialApp.

(** Everything on the two screens that changes the configuration: the
    preset and mode buttons (both screens), the custom inputs of the
    start screen ([Number(e.target.value)], stored as it is), those of
    the editor ([handleCustomDimensionChange]), the lock of the editor,
    a file whose metadata loads, and the reset. *)
Inductive Setting : Type :=
  | SelectRatio (r : AspectRatio)
  | SelectMode (m : ScaleMode)
  | TypeCustom (d : Dimension) (v : num)
  | EditCustom (videoRef : option (Video num)) (d : Dimension) (v : num)
  | ToggleLock (checked : bool)
  | LoadFile (vw vh : num)
  | Reset.

Definition applySetting (c : VideoConfig num) (s : Setting)
    : VideoConfig num :=
  match s with
  | SelectRatio r => set_aspectRatio c r
  | SelectMode m => set_scaleMode c m
  | TypeCustom Width v => set_customWidth c v
  | TypeCustom Height v => set_customHeight c v
  | EditCustom videoRef d v =>
      configAfter c (handleCustomDimensionChange c videoRef d v)
  | ToggleLock checked => set_maintainAspectRatio c checked
  | LoadFile vw vh =>
      set_maintainAspectRatio
        (set_customHeight (set_customWidth c vw) vh) true
  | Reset => initialConfig
  end.

(** The configuration after a series of settings, from the start. *)
Definition configured (settings : list Setting) : VideoConfig num :=
  fold_left applySetting settings initialConfig.

(** What the settings of the two screens leave alone. *)
Definition plainBackground (c : VideoConfig num) : Prop :=
  useAIBackground c = false /\
  backgroundColor c = "#000000"%string /\
  aiPrompt c = "Cosmic nebula with purple and blue hues"%string.

End Application.

Arguments App num : clear implicits.
Arguments Setting num : clear implicits.
Arguments Metadata num : clear implicits.

(** ** More inputs for the examples *)

Module Cases.

Section Inputs.

Context {num : Type} `{JSNumber num}.

(** A browser that records MP4 only and refuses to play the video. *)
Definition refusing : Env num unit :=
  {| refsReady := true;
     generateBackgroundImage := fun _ => Rejected;
     isTypeSupported := fun t => (t =? "video/mp4")%string;
     playFulfils := false |}.

(** A browser that records MP4 only. *)
Definition safari : Env num unit :=
  {| refsReady := true;
     generateBackgroundImage := fun _ => Rejected;
     isTypeSupported := fun t => (t =? "video/mp4")%string;
     playFulfils := true |}.


(** The background image the service draws: a square of 1024. *)
Definition texture : Image num unit :=
  {| i_width := lit 1024; i_height := lit 1024; raster := tt |}.

End Inputs.

(** An answer whose first part is text and whose second part is a PNG
    without a MIME type. *)
Definition textPart : GeminiService.Part :=
  {| GeminiService.inlineData := None |}.

Definition imagePart : GeminiService.Part :=
  {| GeminiService.inlineData :=
       Some {| GeminiService.mimeType := None;
               GeminiService.data := Some "iVBORw0KGgo="%string |} |}.

End Cases.

(** * Properties *)

Unset Implicit Arguments.

Lemma ProcessingState_eqb_spec (a b : ProcessingState) :
  reflect (a = b) (ProcessingState_eqb a b).
Proof. destruct a, b; constructor; congruence. Qed.

Lemma RESOLUTIONS_custom {num} `{JSNumber num} (r : AspectRatio) :
  RESOLUTIONS r = None <-> r = CUSTOM.
Proof. destruct r; simpl; split; congruence. Qed.

(** ** Geometry of the draw rectangle *)

Section ExactGeometry.

Open Scope Q_scope.

Variables (T : Dimensions Q) (v : Video Q).
Hypothesis source_width : 0 < videoWidth v.
Hypothesis source_height : 0 < videoHeight v.

Lemma scale_back (s t : Q) : 0 < s -> s * (t / s) == t.
Proof.
  intros Hs. field. intro E. rewrite E in Hs. discriminate Hs.
Qed.

Lemma cover_covers :
  width T <= w (drawRect COVER T v) /\ height T <= h (drawRect COVER T v).
Proof.
  simpl. split.
  - rewrite <- (scale_back (videoWidth v) (width T) source_width) at 1.
    apply Qmult_le_l; [exact source_width | apply Q.le_max_l].
  - rewrite <- (scale_back (videoHeight v) (height T) source_height) at 1.
    apply Qmult_le_l; [exact source_height | apply Q.le_max_r].
Qed.

Lemma contain_fits :
  w (drawRect CONTAIN T v) <= width T /\ h (drawRect CONTAIN T v) <= height T.
Proof.
  simpl. split.
  - rewrite <- (scale_back (videoWidth v) (width T) source_width) at 2.
    apply Qmult_le_l; [exact source_width | apply Q.le_min_l].
  - rewrite <- (scale_back (videoHeight v) (height T) source_height) at 2.
    apply Qmult_le_l; [exact source_height | apply Q.le_min_r].
Qed.

(** In every mode the margins on opposite sides are equal. *)
Lemma drawRect_centered (m : ScaleMode) :
  let r := drawRect m T v in
  x r == width T - (x r + w r) /\ y r == height T - (y r + h r).
Proof. destruct m; simpl; split; field. Qed.

Lemma half_nonneg (a b : Q) : b <= a -> 0 <= (a - b) / inject_Z 2.
Proof.
  intros Hab. apply Qle_shift_div_l; [reflexivity | lra].
Qed.

End ExactGeometry.

(** C4 (as amended): in [COVER] mode the scale is
    [max (T.w / S.w) (T.h / S.h)] and the rectangle is
    [w = S.w * scale], [h = S.h * scale], [x = (T.w - w) / 2],
    [y = (T.h - h) / 2]; with the arithmetic read exactly and a source of
    positive dimensions it is centred on the target and covers it on both
    axes; in binary64 the source 1920x1080 on the target 1080x1080 gives
    the scale 1 and [x = -420]. *)
Theorem cover_rect_exact (T : Dimensions Q) (v : Video Q) :
  (0 < videoWidth v)%Q -> (0 < videoHeight v)%Q ->
  let r := drawRect COVER T v in
  let scale := Qmax (width T / videoWidth v) (height T / videoHeight v) in
  (coverScale T v = scale /\
   w r = (videoWidth v * scale)%Q /\ h r = (videoHeight v * scale)%Q /\
   x r = ((width T - w r) / inject_Z 2)%Q /\
   y r = ((height T - h r) / inject_Z 2)%Q) /\
  (width T <= w r /\ height T <= h r)%Q /\
  (x r == width T - (x r + w r) /\ y r == height T - (y r + h r))%Q /\
  (coverScale (Scenario.target 1080 1080) (Scenario.clip 1920 1080) = 1%float /\
   drawRect COVER (Scenario.target 1080 1080) (Scenario.clip 1920 1080)
   = {| x := (-420)%float; y := 0%float; w := 1920%float; h := 1080%float |}).
Proof.
  intros Hw Hh r scale. repeat apply conj; try reflexivity.
  - apply (@cover_covers T v Hw Hh).
  - apply (@cover_covers T v Hw Hh).
  - apply (@drawRect_centered T v COVER).
  - apply (@drawRect_centered T v COVER).
Qed.

Lemma cover_rect_exact_witness :
  (inject_Z 1920
   <= w (drawRect COVER (Scenario.target 1920 1080) (Scenario.clip 352 288)))%Q.
Proof.
  exact (proj1 (proj1 (proj2
    (cover_rect_exact (Scenario.target 1920 1080) (Scenario.clip 352 288)
       eq_refl eq_refl)))).
Defined.

(** C4, the claim as stated fails in binary64: the CIF source 352x288 on
    the 16:9 preset 1920x1080 gets the width 1919.9999999999998. *)
Lemma cover_binary64_falls_short :
  let T := Scenario.target 1920 1080 in
  let r := drawRect COVER T (Scenario.clip 352 288) in
  w r = 0x1.dffffffffffffp+10%float /\ PrimFloat.leb (width T) (w r) = false.
Proof. vm_compute. split; reflexivity. Qed.

(** C5 (as amended): in [CONTAIN] mode the scale is
    [min (T.w / S.w) (T.h / S.h)]; with the arithmetic read exactly and a
    source of positive dimensions the rectangle is centred on the target
    and lies within it on both axes; in binary64 the source 1920x1080 on
    the preset 1080x1920 gives the rectangle (0, 656.25, 1080, 607.5). *)
Theorem contain_rect_exact (T : Dimensions Q) (v : Video Q) :
  (0 < videoWidth v)%Q -> (0 < videoHeight v)%Q ->
  let r := drawRect CONTAIN T v in
  let scale := Qmin (width T / videoWidth v) (height T / videoHeight v) in
  (containScale T v = scale /\
   w r = (videoWidth v * scale)%Q /\ h r = (videoHeight v * scale)%Q /\
   x r = ((width T - w r) / inject_Z 2)%Q /\
   y r = ((height T - h r) / inject_Z 2)%Q) /\
  (w r <= width T /\ h r <= height T /\ 0 <= x r /\ 0 <= y r)%Q /\
  (x r == width T - (x r + w r) /\ y r == height T - (y r + h r))%Q /\
  drawRect CONTAIN (Scenario.target 1080 1920) (Scenario.clip 1920 1080)
  = {| x := 0%float; y := 656.25%float; w := 1080%float; h := 607.5%float |}.
Proof.
  intros Hw Hh r scale.
  destruct (@contain_fits T v Hw Hh) as [Hfw Hfh].
  repeat apply conj; try reflexivity; try assumption.
  - apply half_nonneg. exact Hfw.
  - apply half_nonneg. exact Hfh.
  - apply (@drawRect_centered T v CONTAIN).
  - apply (@drawRect_centered T v CONTAIN).
Qed.

Lemma contain_rect_exact_witness :
  (h (drawRect CONTAIN (Scenario.target 1080 1920) (Scenario.clip 750 1334))
   <= inject_Z 1920)%Q.
Proof.
  exact (proj1 (proj2 (proj1 (proj2
    (contain_rect_exact (Scenario.target 1080 1920) (Scenario.clip 750 1334)
       eq_refl eq_refl))))).
Defined.

(** C5, the claim as stated fails in binary64: the source 750x1334 on the
    9:16 preset 1080x1920 gets the height 1920.0000000000002 and a
    negative [y]. *)
Lemma contain_binary64_overshoots :
  let T := Scenario.target 1080 1920 in
  let r := drawRect CONTAIN T (Scenario.clip 750 1334) in
  h r = 0x1.e000000000001p+10%float /\
  PrimFloat.leb (h r) (height T) = false /\
  PrimFloat.leb 0 (y r) = false.
Proof. vm_compute. repeat split; reflexivity. Qed.

(** The floating tolerance of C4 and C5, measured: on the five presets and
    every source of [Scenario.sources], the binary64 rectangles miss the
    exact bounds by less than 2^-40 of a pixel. *)
Lemma binary64_rectangles_within_tolerance :
  forallb
    (fun r => forallb (Scenario.fitsUpTo 0x1p-40%float r) Scenario.sources)
    Scenario.presets
  = true.
Proof. vm_compute. reflexivity. Qed.

(** ** Target dimensions *)

(** The presets are positive, and a custom dimension that is [undefined],
    zero or NaN falls back to 1920 or 1080: what [||] catches. *)
Lemma getTargetDimensions_preset (config : VideoConfig float) :
  aspectRatio config <> CUSTOM ->
  let d := getTargetDimensions config in
  PrimFloat.ltb 0 (width d) = true /\ PrimFloat.ltb 0 (height d) = true.
Proof.
  intros Hr. unfold getTargetDimensions.
  destruct (aspectRatio config); try congruence; split; reflexivity.
Qed.

Lemma or_else_fallback {num} `{JSNumber num} (a : option num) (b : num) :
  match a with Some v => falsy v = true | None => True end ->
  or_else a b = b.
Proof. destruct a as [v|]; simpl; [intros -> | ]; reflexivity. Qed.

Lemma or_else_keeps {num} `{JSNumber num} (v b : num) :
  falsy v = false -> or_else (Some v) b = v.
Proof. simpl. intros ->. reflexivity. Qed.

(** C10, the claim as stated fails: with the lock off, typing -5 into the
    custom width makes [getTargetDimensions] return the width -5, which is
    not positive ([||] only replaces zero, NaN and [undefined]). *)
Lemma getTargetDimensions_negative_width :
  let typed :=
    configAfter (Scenario.custom 1920 1080 false)
      (handleCustomDimensionChange (Scenario.custom 1920 1080 false)
         (Some (Scenario.clip 1920 1080)) Width (-5)%float) in
  customWidth typed = Some (-5)%float /\
  getTargetDimensions typed = {| width := (-5)%float; height := 1080%float |} /\
  PrimFloat.ltb 0 (width (getTargetDimensions typed)) = false.
Proof. vm_compute. repeat split; reflexivity. Qed.

(** ** The aspect-ratio lock *)

Lemma exact_round_positive (q : Q) :
  (0 < @Math_round Q exact q)%Q <-> (1 # 2 <= q)%Q.
Proof.
  unfold Math_round, exact. rewrite <- (Zlt_Qlt 0).
  split; intros Hq.
  - assert (H1 : (inject_Z 1 <= q + (1 # 2))%Q).
    { eapply Qle_trans; [ | apply Qfloor_le].
      rewrite <- Zle_Qle. lia. }
    change (inject_Z 1) with 1%Q in H1. lra.
  - assert (H1 : (Qfloor 1 <= Qfloor (q + (1 # 2)))%Z).
    { apply Qfloor_resp_le. lra. }
    change (Qfloor 1) with 1%Z in H1. lia.
Qed.

(** C6 (as amended): with the lock enabled and the source ratio
    [r = videoWidth / videoHeight], a width [v] sets the custom height to
    [Math.round(v / r)] and a height [v] sets the custom width to
    [Math.round(v * r)]; an input that converts to NaN leaves the
    configuration as it was.  The derived value is not kept positive: read
    exactly, it is positive if and only if the quotient or product is at
    least one half. *)
Theorem aspect_lock_rounds {num} `{JSNumber num}
    (config : VideoConfig num) (vid : Video num) (v : num) :
  maintainAspectRatio config = Some true ->
  isNaN v = false ->
  let r := div (videoWidth vid) (videoHeight vid) in
  handleCustomDimensionChange config (Some vid) Width v
  = Some (set_customHeight (set_customWidth config v) (Math_round (div v r)))
  /\
  handleCustomDimensionChange config (Some vid) Height v
  = Some (set_customWidth (set_customHeight config v) (Math_round (mul v r)))
  /\
  (forall (videoRef : option (Video num)) (d : Dimension) (nan : num),
     isNaN nan = true ->
     configAfter config (handleCustomDimensionChange config videoRef d nan)
     = config)
  /\
  (forall q : Q, (0 < @Math_round Q exact q)%Q <-> (1 # 2 <= q)%Q).
Proof.
  intros Hlock Hv r. unfold handleCustomDimensionChange.
  rewrite Hv, Hlock. repeat split.
  - intros videoRef d nan Hnan. rewrite Hnan. reflexivity.
  - apply exact_round_positive.
  - apply exact_round_positive.
Qed.

Lemma aspect_lock_rounds_witness :
  handleCustomDimensionChange (Scenario.preset CUSTOM CONTAIN false)
    (Some (Scenario.clip 1920 1080)) Width 1280%float
  = Some (set_customHeight
            (set_customWidth (Scenario.preset CUSTOM CONTAIN false) 1280%float)
            720%float).
Proof.
  exact (proj1 (aspect_lock_rounds (Scenario.preset CUSTOM CONTAIN false)
                  (Scenario.clip 1920 1080) 1280%float eq_refl eq_refl)).
Defined.

(** C6, the claim as stated fails: on an ultra-wide source 2560x1080 with
    the lock enabled, the first digit of a width (1) derives the height
    [Math.round(0.421875) = 0], which is not positive. *)
Lemma aspect_lock_derives_zero :
  let config := Scenario.custom 2560 1080 true in
  let after :=
    configAfter config
      (handleCustomDimensionChange config (Some (Scenario.clip 2560 1080))
         Width 1%float) in
  customHeight after = Some 0%float /\ PrimFloat.ltb 0 0 = false.
Proof. vm_compute. split; reflexivity. Qed.

(** A number that is not below zero is zero, NaN or above zero. *)
Lemma not_negative (v : float) :
  PrimFloat.ltb v 0 = false ->
  Binary64.falsy v = true \/ PrimFloat.ltb 0 v = true.
Proof.
  unfold Binary64.falsy, PrimFloat.is_zero, PrimFloat.is_nan.
  rewrite !FloatAxioms.ltb_spec, !FloatAxioms.eqb_spec.
  change (Prim2SF 0) with (S754_zero false).
  change (Prim2SF PrimFloat.zero) with (S754_zero false).
  destruct (Prim2SF v) as [s | s | | s m e]; try destruct s; cbn;
    intros Hlt; try discriminate Hlt; auto.
Qed.

Lemma or_else_positive (a : option float) (b : float) :
  PrimFloat.ltb 0 b = true ->
  (forall v, a = Some v -> PrimFloat.ltb v 0 = false) ->
  PrimFloat.ltb 0 (or_else a b) = true.
Proof.
  intros Hb Ha. destruct a as [v|]; [ | exact Hb].
  cbn [or_else falsy binary64].
  destruct (not_negative v (Ha v eq_refl)) as [E | E].
  - rewrite E. exact Hb.
  - destruct (Binary64.falsy v); [exact Hb | exact E].
Qed.

(** C10 (as amended): for every preset, and for [CUSTOM] with custom
    values that are not negative (each [undefined], zero, NaN or above
    zero, fractional or not), the target dimensions are positive. *)
Theorem getTargetDimensions_positive (config : VideoConfig float) :
  (aspectRatio config = CUSTOM ->
   (forall v, customWidth config = Some v -> PrimFloat.ltb v 0 = false) /\
   (forall v, customHeight config = Some v -> PrimFloat.ltb v 0 = false)) ->
  let d := getTargetDimensions config in
  PrimFloat.ltb 0 (width d) = true /\ PrimFloat.ltb 0 (height d) = true.
Proof.
  intros Hcustom. unfold getTargetDimensions.
  destruct (aspectRatio config); cbn [RESOLUTIONS]; try (split; reflexivity).
  destruct (Hcustom eq_refl) as [Hw Hh]. cbn [width height].
  split; apply or_else_positive; try reflexivity; assumption.
Qed.

Lemma getTargetDimensions_positive_witness :
  let d :=
    getTargetDimensions
      {| aspectRatio := CUSTOM; scaleMode := COVER;
         backgroundColor := "#000000"; useAIBackground := false;
         aiPrompt := ""; customWidth := Some 0%float;
         customHeight := Some 0.5%float;
         maintainAspectRatio := None |} in
  PrimFloat.ltb 0 (width d) = true /\ PrimFloat.ltb 0 (height d) = true.
Proof.
  apply getTargetDimensions_positive. intros _. split.
  - intros v E. injection E as <-. reflexivity.
  - intros v E. injection E as <-. reflexivity.
Defined.

(** ** The render loop *)

Ltac run :=
  unfold exec, export, clickExport, stopRecorder, onstop, ondataavailable,
    during, renderLoop, startProcessing, generateAIBackground,
    handleSeekReset, modifyVideo, bind, ret, get;
  cbn [fst snd setProcessingState setProgress setDownloadUrl
       setRecordingMimeType setAiBgImage setErrorMsg setIsPlaying setVideo
       setRecorders processingState progress downloadUrl recordingMimeType
       aiBgImage errorMsg isPlaying isMuted volume video recorders stateLog
       progressLog].

Section RenderLoop.

Context {num : Type} `{JSNumber num} {Img : Type}.

(** Outside [RECORDING] the callback does nothing and schedules
    nothing. *)
Lemma renderLoop_cancelled (f : Frame num) (c : Component num Img) :
  processingState c <> RECORDING -> renderLoop f c = (false, c).
Proof.
  intros Hs. unfold renderLoop, bind, get.
  destruct (ProcessingState_eqb_spec (processingState c) RECORDING);
    [contradiction | reflexivity].
Qed.

Lemma renderLoop_recording (f : Frame num) (c : Component num Img) :
  processingState c = RECORDING ->
  let c' := snd (renderLoop f c) in
  fst (renderLoop f c) = negb (atEnd f) /\
  processingState c' = RECORDING /\
  duration (video c') = duration (video c) /\
  progressLog c' = progressLog c ++ [percent (duration (video c)) f] /\
  progress c' = percent (duration (video c)) f /\
  recorders c' = recorders c /\ downloadUrl c' = downloadUrl c /\
  errorMsg c' = errorMsg c /\ stateLog c' = stateLog c /\
  volume c' = volume c /\ isMuted c' = isMuted c.
Proof.
  intros Hs. unfold renderLoop, bind, get. rewrite Hs.
  cbn [ProcessingState_eqb negb].
  run. destruct (atEnd f); cbn; repeat split; assumption.
Qed.


End RenderLoop.

Section ExactProgress.

Open Scope Q_scope.





End ExactProgress.




(** ** The export state machine *)

Section ExportSession.

Context {num : Type} `{JSNumber num} {Img : Type}.

Local Abbreviation Component := (Component num Img).
Local Abbreviation Env := (Env num Img).

Lemma bytes_app (l l' : list Blob) :
  bytes (l ++ l') = (bytes l + bytes l')%N.
Proof.
  unfold bytes. induction l as [|b l IH]; cbn; [reflexivity | ].
  fold (bytes (l ++ l')) in *. fold (bytes l) in *. lia.
Qed.

(** What [startProcessing] leaves behind when playback starts. *)
Lemma startProcessing_records (config : VideoConfig num) (env : Env)
    (c : Component) :
  refsReady env = true ->
  playStarts env = true ->
  generateBackgroundImage env (sentPrompt config) <> NeverLoads ->
  let c' := exec (startProcessing config env) c in
  processingState c' = RECORDING /\
  downloadUrl c' = None /\
  errorMsg c' = None /\
  recorders c'
  = recorders c
    ++ [ {| mimeType := selectMimeType env; chunks := [];
            recording := true;
            savedVolume := volume c; savedMuted := isMuted c |} ] /\
  duration (video c') = duration (video c) /\
  volume c' = volume c /\ isMuted c' = isMuted c /\
  exists trail,
    stateLog c' = stateLog c ++ trail /\ ~ In COMPLETED trail.
Proof.
  intros Hrefs Hplay Hgen.
  apply andb_prop in Hplay as [Hnew Hplay]. unfold constructs in Hnew.
  destruct c. unfold exec, startProcessing.
  rewrite Hrefs, Hnew, Hplay. cbn [negb]. run.
  destruct (isContain _ && _ && _ && _);
    [ destruct (negb (truthy (trim (aiPrompt config))));
      [ | destruct (generateBackgroundImage env _); [ | | congruence] ] | ];
    cbn -[selectMimeType]; repeat split;
    try (now exists [RECORDING]; split;
           [reflexivity | cbn; intuition discriminate]);
    exists [GENERATING_BACKGROUND; IDLE; RECORDING];
    (split; [now rewrite <- !app_assoc | cbn; intuition discriminate]).
Qed.

Lemma clickExport_idle (config : VideoConfig num) (env : Env)
    (c : Component) :
  processingState c = IDLE ->
  clickExport config env c = startProcessing config env c.
Proof.
  intros Hs. unfold clickExport, bind, get, mainAction. rewrite Hs.
  reflexivity.
Qed.

Lemma sessionStep_refl (id : nat) (c : Component) : sessionStep id 0 c c.
Proof.
  repeat split. intros r Hr. exists r. rewrite N.add_0_r. now repeat split.
Qed.

Lemma sessionStep_trans (id : nat) (n m : N) (c c' c'' : Component) :
  sessionStep id n c c' -> sessionStep id m c' c'' ->
  sessionStep id (n + m) c c''.
Proof.
  intros (Hs & Hu & He & Hl & Hd & Hr) (Hs' & Hu' & He' & Hl' & Hd' & Hr').
  repeat split; try congruence.
  intros r Hn. destruct (Hr r Hn) as (r' & Hn' & ? & ? & ? & ? & Hb).
  destruct (Hr' r' Hn') as (r'' & Hn'' & ? & ? & ? & ? & Hb').
  exists r''. repeat split; try congruence. rewrite Hb', Hb. lia.
Qed.

Lemma nth_error_updateNth {A} (f : A -> A) (l : list A) (id : nat) (a : A) :
  nth_error l id = Some a ->
  nth_error (updateNth id f l) id = Some (f a).
Proof.
  revert id. induction l as [|b l IH]; intros [|id]; cbn; try discriminate.
  - now intros [= ->].
  - apply IH.
Qed.

Lemma ondataavailable_step (id : nat) (data : option Blob) (c : Component) :
  sessionStep id (delivered data) c (exec (ondataavailable id data) c).
Proof.
  destruct data as [b|]; cbn [delivered]; [ | apply sessionStep_refl].
  unfold exec, ondataavailable.
  destruct (0 <? size b)%N eqn:Hpos.
  - run. repeat split. intros r Hr.
    exists (pushChunk b r). split; [now apply nth_error_updateNth | ].
    repeat split. cbn [pushChunk chunks]. rewrite bytes_app.
    unfold bytes at 2. cbn. lia.
  - apply N.ltb_ge in Hpos.
    replace (size b) with 0%N by lia. apply sessionStep_refl.
Qed.

Lemma renderLoop_step (id : nat) (f : Frame num) (c : Component) :
  sessionStep id 0 c (snd (renderLoop f c)).
Proof.
  destruct (ProcessingState_eqb_spec (processingState c) RECORDING) as [Hs|Hs].
  - destruct (renderLoop_recording f c Hs)
      as (_ & Hs' & Hd & _ & _ & Hr & Hu & He & Hl & _).
    repeat split; try congruence.
    intros r Hn. exists r. rewrite Hr, N.add_0_r. now repeat split.
  - rewrite (renderLoop_cancelled f c Hs). apply sessionStep_refl.
Qed.

Lemma session_steps (id : nat) (events : list SessionEvent) :
  forall c : Component,
    sessionStep id (captured events) c (exec (session id events) c).
Proof.
  induction events as [|e rest IH]; intros c; [apply sessionStep_refl | ].
  unfold exec in *. cbn [session]. unfold bind at 1.
  destruct (during id e c) as [u c'] eqn:E.
  assert (Hstep : sessionStep id
                    match e with
                    | DataAvailable data => delivered data
                    | FrameCallback _ => 0%N
                    end c c').
  { destruct e as [data | f]; cbn [during] in E.
    - pose proof (ondataavailable_step id data c) as Hd.
      unfold exec in Hd. rewrite E in Hd. exact Hd.
    - unfold bind, ret in E. pose proof (renderLoop_step id f c) as Hf.
      destruct (renderLoop f c) as [b c1]. injection E as _ <-. exact Hf. }
  destruct e as [data | f]; cbn [captured].
  - eapply sessionStep_trans; [exact Hstep | apply IH].
  - change (captured rest) with (0 + captured rest)%N.
    eapply sessionStep_trans; [exact Hstep | apply IH].
Qed.

(** [onstop] on a recorder: the failure branch on zero bytes, the
    success branch otherwise. *)
Lemma onstop_outcome (id : nat) (c : Component) (r : Recorder num) :
  nth_error (recorders c) id = Some r ->
  let c' := exec (onstop id) c in
  (bytes (chunks r) = 0%N ->
     processingState c' = IDLE /\ errorMsg c' = Some zeroBytes /\
     downloadUrl c' = downloadUrl c /\
     stateLog c' = stateLog c ++ [IDLE]) /\
  (bytes (chunks r) <> 0%N ->
     processingState c' = COMPLETED /\
     downloadUrl c'
     = Some {| size := bytes (chunks r); type := mimeType r |} /\
     (isFinite (div (duration (video c)) (lit 2)) = true ->
      currentTime (video c') = div (duration (video c)) (lit 2) /\
      v_volume (video c') = savedVolume r /\
      muted (video c') = savedMuted r /\
      isPlaying c' = false) /\
     (isFinite (div (duration (video c)) (lit 2)) = false ->
      video c' = video c /\ isPlaying c' = isPlaying c)).
Proof.
  intros Hr. unfold exec, onstop, bind, get. cbv beta iota zeta.
  rewrite Hr. unfold newBlob. cbn [size]. fold (bytes (chunks r)).
  destruct (N.eqb_spec (bytes (chunks r)) 0) as [E|E];
    split; intros E'; try contradiction; [cbn; repeat split | ].
  cbn [setDownloadUrl setProcessingState snd video].
  destruct (isFinite (div (duration (video c)) (lit 2)));
    cbn; repeat split; intros; try discriminate; repeat split.
Qed.

Lemma stopRecorder_outcome (id : nat) (last : option Blob)
    (c : Component) (r : Recorder num) :
  nth_error (recorders c) id = Some r ->
  recording r = true ->
  let total := (bytes (chunks r) + delivered last)%N in
  let c' := exec (stopRecorder id last) c in
  (total = 0%N ->
     processingState c' = IDLE /\ errorMsg c' = Some zeroBytes /\
     downloadUrl c' = downloadUrl c /\
     stateLog c' = stateLog c ++ [IDLE]) /\
  (total <> 0%N ->
     processingState c' = COMPLETED /\
     downloadUrl c' = Some {| size := total; type := mimeType r |} /\
     (isFinite (div (duration (video c)) (lit 2)) = true ->
      currentTime (video c') = div (duration (video c)) (lit 2) /\
      v_volume (video c') = savedVolume r /\
      muted (video c') = savedMuted r /\
      isPlaying c' = false) /\
     (isFinite (div (duration (video c)) (lit 2)) = false ->
      video c' = video c /\ isPlaying c' = isPlaying c)).
Proof.
  intros Hr Hrec total c'. subst c'.
  set (c1 := snd (setRecorders (updateNth id stopped (recorders c)) c)).
  assert (Hrun : exec (stopRecorder id last) c
                 = exec (onstop id) (exec (ondataavailable id last) c1)).
  { unfold c1, exec, stopRecorder, bind, get. cbv beta iota zeta.
    rewrite Hr, Hrec. cbn [setRecorders snd].
    destruct (ondataavailable id last _); reflexivity. }
  rewrite Hrun.
  assert (H1 : nth_error (recorders c1) id = Some (stopped r))
    by (now apply nth_error_updateNth).
  destruct (ondataavailable_step id last c1)
    as (Hs & Hu & He & Hl & Hd & Hn).
  destruct (Hn _ H1) as (r2 & H2 & Hm & _ & Hv & Hmu & Hb).
  cbn [stopped mimeType savedVolume savedMuted chunks] in Hm, Hv, Hmu, Hb.
  fold total in Hb.
  assert (Hvid : video (exec (ondataavailable id last) c1) = video c /\
                 isPlaying (exec (ondataavailable id last) c1)
                 = isPlaying c).
  { unfold exec, ondataavailable.
    destruct last as [b|]; [destruct (0 <? size b)%N | ];
      split; reflexivity. }
  destruct Hvid as [Hvid Hplaying].
  pose proof (onstop_outcome id _ _ H2) as [Hzero Hdone].
  rewrite Hb, Hm, Hv, Hmu, Hu, Hl, Hvid, Hplaying in *.
  split; [exact Hzero | exact Hdone].
Qed.

End ExportSession.

Section ExportClaims.

Context {num : Type} `{JSNumber num} {Img : Type}.

Variables (config : VideoConfig num) (env : Env num Img).
Variable c : Component num Img.

(** The recorder a click on [c] creates has the number
    [length (recorders c)]; after the events of the session it holds
    what they delivered. *)
Lemma export_session (events : list SessionEvent) :
  processingState c = IDLE ->
  refsReady env = true ->
  playStarts env = true ->
  generateBackgroundImage env (sentPrompt config) <> NeverLoads ->
  let c2 := exec (session (List.length (recorders c)) events)
              (exec (clickExport config env) c) in
  downloadUrl c2 = None /\
  duration (video c2) = duration (video c) /\
  (exists trail,
      stateLog c2 = stateLog c ++ trail /\ ~ In COMPLETED trail) /\
  exists r,
    nth_error (recorders c2) (List.length (recorders c)) = Some r /\
    mimeType r = selectMimeType env /\ recording r = true /\
    savedVolume r = volume c /\ savedMuted r = isMuted c /\
    bytes (chunks r) = captured events.
Proof.
  intros Hidle Hrefs Hplay Hgen c2. subst c2.
  replace (exec (clickExport config env) c)
    with (exec (startProcessing config env) c)
    by (unfold exec; now rewrite clickExport_idle).
  destruct (startProcessing_records config env c Hrefs Hplay Hgen)
    as (_ & Hu & _ & Hr & Hd & _ & _ & Hl).
  set (c1 := exec (startProcessing config env) c) in *.
  destruct (session_steps (List.length (recorders c)) events c1)
    as (_ & Hu2 & _ & Hl2 & Hd2 & Hn).
  set (c2 := exec (session (List.length (recorders c)) events) c1) in *.
  repeat split; try congruence.
  - destruct Hl as (trail & Hl & Hnot). exists trail.
    split; [congruence | exact Hnot].
  - assert (Hnth : nth_error (recorders c1) (List.length (recorders c))
                   = Some {| mimeType := selectMimeType env; chunks := [];
                             recording := true; savedVolume := volume c;
                             savedMuted := isMuted c |}).
    { rewrite Hr, nth_error_app2, Nat.sub_diag by apply Nat.le_refl.
      reflexivity. }
    destruct (Hn _ Hnth) as (r & Hr2 & Hm & Hrec & Hv & Hmu & Hb).
    exists r. cbn in Hm, Hrec, Hv, Hmu, Hb. now repeat split.
Qed.

(** C7: when an export started from [IDLE] reaches the recorder's stop
    with no byte captured, whatever events the session saw, the
    component is back in [IDLE] with the error message of the empty
    recording, no artifact is published, and [COMPLETED] was never set.
    In whatever state [onstop] runs, on a recorder without bytes it sets
    the message and [IDLE], touches no artifact, and leaves the export
    button, not a download link, as the main action. *)
Theorem zero_byte_export_fails
    (events : list SessionEvent) (last : option Blob) :
  processingState c = IDLE ->
  refsReady env = true ->
  playStarts env = true ->
  generateBackgroundImage env (sentPrompt config) <> NeverLoads ->
  (captured events + delivered last = 0)%N ->
  let c' := exec (export config env events last) c in
  (processingState c' = IDLE /\
   errorMsg c' = Some zeroBytes /\
   downloadUrl c' = None /\
   exists trail,
     stateLog c' = stateLog c ++ trail /\ ~ In COMPLETED trail) /\
  (forall (c0 : Component num Img) (id : nat) (r : Recorder num),
     nth_error (recorders c0) id = Some r ->
     bytes (chunks r) = 0%N ->
     let c1 := exec (onstop id) c0 in
     processingState c1 = IDLE /\
     errorMsg c1 = Some zeroBytes /\
     downloadUrl c1 = downloadUrl c0 /\
     mainAction c1 = ExportButton false).
Proof.
  intros Hidle Hrefs Hplay Hgen Hzero. split.
  2: { intros c0 id r Hr Hb.
       destruct (onstop_outcome id c0 r Hr) as [Hfail _].
       destruct (Hfail Hb) as (Hs & He & Hu & _).
       repeat split; try assumption.
       unfold mainAction. rewrite Hs. reflexivity. }
  destruct (export_session events Hidle Hrefs Hplay Hgen)
    as (Hu & _ & (trail & Hl & Hnot) & r & Hr & _ & Hrec & _ & _ & Hb).
  destruct (stopRecorder_outcome _ last _ r Hr Hrec) as [Hfail _].
  rewrite Hb in Hfail. destruct (Hfail Hzero) as (Hs & He & Hu' & Hl').
  unfold export, exec, bind, get. cbv beta iota zeta.
  unfold exec in *.
  destruct (clickExport config env c) as [u1 c1]. cbn [snd] in *.
  destruct (session _ events c1) as [u2 c2]. cbn [snd] in *.
  repeat split; try congruence.
  exists (trail ++ [IDLE]). split.
  - rewrite Hl', Hl, app_assoc. reflexivity.
  - intros Hin. apply in_app_or in Hin. destruct Hin as [Hin | [E | []]].
    + exact (Hnot Hin).
    + discriminate E.
Qed.

(** C8 (as amended): when an export started from [IDLE] reaches the
    recorder's stop with bytes captured, on a video whose midpoint
    [duration / 2] is a finite time, the component is [COMPLETED], the
    artifact holds every captured byte, the video is positioned at that
    midpoint (the default preview point, wherever the preview was parked
    before), and its volume and mute flag are the user's settings at
    the click. *)
Theorem successful_export_restores
    (events : list SessionEvent) (last : option Blob) :
  processingState c = IDLE ->
  refsReady env = true ->
  playStarts env = true ->
  generateBackgroundImage env (sentPrompt config) <> NeverLoads ->
  (captured events + delivered last <> 0)%N ->
  isFinite (div (duration (video c)) (lit 2)) = true ->
  let c' := exec (export config env events last) c in
  processingState c' = COMPLETED /\
  downloadUrl c'
  = Some {| size := captured events + delivered last;
            type := selectMimeType env |} /\
  currentTime (video c') = div (duration (video c)) (lit 2) /\
  v_volume (video c') = volume c /\
  muted (video c') = isMuted c.
Proof.
  intros Hidle Hrefs Hplay Hgen Hsome Hfinite.
  destruct (export_session events Hidle Hrefs Hplay Hgen)
    as (_ & Hd & _ & r & Hr & Hm & Hrec & Hv & Hmu & Hb).
  destruct (stopRecorder_outcome _ last _ r Hr Hrec) as [_ Hdone].
  rewrite Hb, Hd in Hdone.
  destruct (Hdone Hsome) as (Hs & Hu & Hrestored & _).
  destruct (Hrestored Hfinite) as (Ht & Hvol & Hmuted & _).
  unfold export, exec, bind, get. cbv beta iota zeta.
  unfold exec in *.
  destruct (clickExport config env c) as [u1 c1]. cbn [snd] in *.
  destruct (session _ events c1) as [u2 c2]. cbn [snd] in *.
  repeat split; congruence.
Qed.

(** C2: outside [IDLE] a click on the main action changes nothing: the
    progress, the artifact and the recorders stay as they are. *)
Theorem clickExport_outside_IDLE_is_noop :
  processingState c <> IDLE ->
  let c' := exec (clickExport config env) c in
  c' = c /\
  progress c' = progress c /\ downloadUrl c' = downloadUrl c /\
  recorders c' = recorders c /\ stateLog c' = stateLog c.
Proof.
  intros Hbusy.
  assert (Hnoop : exec (clickExport config env) c = c).
  { unfold exec, clickExport, bind, get, mainAction.
    destruct (processingState c); try congruence;
      destruct (downloadUrl c); reflexivity. }
  cbv zeta. rewrite Hnoop. repeat split.
Qed.

End ExportClaims.

(** *** The claims on a ten-second clip, in binary64 *)

Lemma zero_byte_export_fails_witness :
  processingState
    (exec (export (Scenario.preset SQUARE COVER false) Scenario.browser
             [FrameCallback (Scenario.frame 5 false);
              DataAvailable (Scenario.chunk 0);
              FrameCallback (Scenario.frame 10 true)] None)
       (Scenario.mounted (Scenario.clip 1920 1080 : Video float)))
  = IDLE.
Proof.
  refine (proj1 (proj1 (zero_byte_export_fails
    (Scenario.preset SQUARE COVER false) Scenario.browser
    (Scenario.mounted (Scenario.clip 1920 1080))
    [FrameCallback (Scenario.frame 5 false);
     DataAvailable (Scenario.chunk 0);
     FrameCallback (Scenario.frame 10 true)] None
    eq_refl eq_refl eq_refl _ eq_refl))).
  cbn. discriminate.
Defined.

Lemma successful_export_restores_witness :
  processingState
    (exec (export (Scenario.preset SQUARE COVER false) Scenario.browser
             [FrameCallback (Scenario.frame 5 false);
              DataAvailable (Scenario.chunk 4096);
              FrameCallback (Scenario.frame 10 true)] (Scenario.chunk 100))
       (Scenario.mounted (Scenario.clip 1920 1080 : Video float)))
  = COMPLETED.
Proof.
  refine (proj1 (successful_export_restores
    (Scenario.preset SQUARE COVER false) Scenario.browser
    (Scenario.mounted (Scenario.clip 1920 1080))
    [FrameCallback (Scenario.frame 5 false);
     DataAvailable (Scenario.chunk 4096);
     FrameCallback (Scenario.frame 10 true)] (Scenario.chunk 100)
    eq_refl eq_refl eq_refl _ _ eq_refl)).
  - cbn. discriminate.
  - cbn. discriminate.
Defined.

(** C8, the claim as stated fails: the preview was parked at 0 s (the
    skip-back button) when the export started, and the finished export
    leaves the video at 5 s, the midpoint of the clip. *)
Lemma export_does_not_return_to_parked_position :
  let before : Component float unit :=
    exec handleSeekReset (Scenario.mounted (Scenario.clip 1920 1080)) in
  let after :=
    exec (export (Scenario.preset SQUARE COVER false) Scenario.browser
            [FrameCallback (Scenario.frame 5 false);
             DataAvailable (Scenario.chunk 4096);
             FrameCallback (Scenario.frame 10 true)] (Scenario.chunk 100))
      before in
  processingState before = IDLE /\
  currentTime (video before) = 0%float /\
  processingState after = COMPLETED /\
  currentTime (video after) = 5%float /\
  PrimFloat.eqb (currentTime (video after)) (currentTime (video before))
  = false.
Proof. vm_compute. repeat split; reflexivity. Qed.

Lemma clickExport_outside_IDLE_is_noop_witness :
  let recording : Component float unit :=
    exec (clickExport (Scenario.preset SQUARE COVER false) Scenario.browser)
      (Scenario.mounted (Scenario.clip 1920 1080)) in
  exec (clickExport (Scenario.preset SQUARE COVER false) Scenario.browser)
    recording
  = recording.
Proof.
  refine (proj1 (clickExport_outside_IDLE_is_noop
    (Scenario.preset SQUARE COVER false) Scenario.browser
    (exec (clickExport (Scenario.preset SQUARE COVER false) Scenario.browser)
       (Scenario.mounted (Scenario.clip 1920 1080))) _)).
  cbn. discriminate.
Defined.

(** At the boundary of the component: [CONTAIN], an AI background
    requested, a prompt, no image yet, and an image service that rejects.
    [generateAIBackground] sets the error message and [IDLE];
    [startProcessing] then goes on: it sets [RECORDING], clears the
    message and starts a recorder.  (No configuration the application
    produces requests an AI background; see the settings below.) *)
Theorem failed_generation_still_records :
  let c : Component float unit :=
    exec (clickExport (Scenario.preset PORTRAIT CONTAIN true)
            Scenario.browser)
      (Scenario.mounted (Scenario.clip 1920 1080)) in
  stateLog c = [GENERATING_BACKGROUND; IDLE; RECORDING] /\
  processingState c = RECORDING /\
  errorMsg c = None /\
  map (@recording float) (recorders c) = [true].
Proof. vm_compute. repeat split; reflexivity. Qed.

(** When the prompt is not blank the export
    passes through [GENERATING_BACKGROUND] before anything else. *)
Lemma generation_comes_first {num : Type} `{JSNumber num} {Img : Type}
    (config : VideoConfig num) (env : Env num Img) (c : Component num Img) :
  refsReady env = true ->
  scaleMode config = CONTAIN ->
  useAIBackground config = true ->
  aiBgImage c = None ->
  truthy (trim (aiPrompt config)) = true ->
  exists rest,
    stateLog (exec (startProcessing config env) c)
    = stateLog c ++ GENERATING_BACKGROUND :: rest.
Proof.
  intros Hrefs Hmode Hai Himg Hprompt.
  assert (Htruthy : truthy (aiPrompt config) = true).
  { destruct (aiPrompt config); [discriminate Hprompt | reflexivity]. }
  unfold exec, startProcessing. rewrite Hrefs. cbn [negb]. run.
  rewrite Hmode, Hai, Himg, Htruthy, Hprompt. cbn [isContain isNone andb negb].
  destruct (generateBackgroundImage env (sentPrompt config));
    [ destruct (isTypeSupported env (selectMimeType env));
      [destruct (playFulfils env) | ]
    | destruct (isTypeSupported env (selectMimeType env));
      [destruct (playFulfils env) | ]
    | ];
    cbn -[selectMimeType]; rewrite <- ?app_assoc; eexists; reflexivity.
Qed.

(** A prompt of white space is truthy, so [generateAIBackground] is
    awaited, and blank, so it returns at once: the export goes straight to
    [RECORDING]. *)
Remark blank_prompt_skips_generation :
  let asked : VideoConfig float :=
    {| aspectRatio := PORTRAIT; scaleMode := CONTAIN;
       backgroundColor := "#000000"; useAIBackground := true;
       aiPrompt := "  "; customWidth := None; customHeight := None;
       maintainAspectRatio := None |} in
  stateLog
    (exec (clickExport asked Scenario.browser)
       (Scenario.mounted (Scenario.clip 1920 1080)))
  = [RECORDING].
Proof. vm_compute. reflexivity. Qed.

(** [startProcessing] has no guard of its own: called on a recording
    component it would reset the progress and start a second recorder.
    The button's [disabled] is what keeps it from being called. *)
Remark startProcessing_is_guarded_by_the_button_only :
  let busy : Component float unit :=
    exec (pump [Scenario.frame 5 false])
      (exec (clickExport (Scenario.preset SQUARE COVER false)
               Scenario.browser)
         (Scenario.mounted (Scenario.clip 1920 1080))) in
  let again :=
    exec (startProcessing (Scenario.preset SQUARE COVER false)
            Scenario.browser)
      busy in
  progress busy = 50%float /\
  progress again = 0%float /\
  map (@recording float) (recorders again) = [true; true].
Proof. vm_compute. repeat split; reflexivity. Qed.

(** ** The compositor *)

Section Idempotence.

Context {num : Type} `{JSNumber num}.
Context {Pix Img : Type} `{Canvas2D num Pix Img}.

Variables (config : VideoConfig num) (aiBgImage : option (Image num Img)).
Variables (video : Video num) (frame : Img).

Local Abbreviation draw := (drawFrame config aiBgImage video frame).




End Idempotence.


(** The opaque background matters: with a half-transparent white one
    (a colour no setting of the application produces) the first fill
    blends with what the canvas holds, so the padding pixels of the second
    call (239) differ from those of the first (191). *)
Remark drawFrame_translucent_background_accumulates :
  let config := Scenario.strip "rgba(255,255,255,0.5)" in
  let once := drawFrame config None (Scenario.clip 1 1) 100%Z Scenario.blank in
  let twice := drawFrame config None (Scenario.clip 1 1) 100%Z once in
  pixels once = (191, 100, 191)%Z /\
  pixels twice = (239, 100, 239)%Z /\
  twice <> once.
Proof.
  vm_compute. repeat split. intros E. discriminate E.
Qed.

(** * The rest of the component *)

(** ** Proportions of the draw rectangle and of the background image *)

Section Proportions.

Open Scope Q_scope.

Variables (T : Dimensions Q) (v : Video Q).

Lemma Qmax_cases (a b : Q) : Qmax a b == a \/ Qmax a b == b.
Proof.
  destruct (Qlt_le_dec a b) as [Hlt | Hle].
  - right. apply Q.max_r. now apply Qlt_le_weak.
  - left. now apply Q.max_l.
Qed.

Lemma Qmin_cases (a b : Q) : Qmin a b == a \/ Qmin a b == b.
Proof.
  destruct (Qlt_le_dec a b) as [Hlt | Hle].
  - left. apply Q.min_l. now apply Qlt_le_weak.
  - right. now apply Q.min_r.
Qed.

(** X1: With the arithmetic read exactly, [CONTAIN] and [COVER] never
    distort the picture (the rectangle has the proportions of the
    source) and they are tight: the rectangle has the target's width or
    the target's height. *)
Theorem scaled_rect_undistorted_and_tight (m : ScaleMode) :
  0 < videoWidth v -> 0 < videoHeight v -> m <> STRETCH ->
  let r := drawRect m T v in
  w r * videoHeight v == h r * videoWidth v /\
  (w r == width T \/ h r == height T).
Proof.
  intros Hw Hh Hm r. subst r. split.
  - destruct m; [ | contradiction | ]; simpl; ring.
  - destruct m; [ | contradiction | ]; simpl.
    + destruct (Qmin_cases (width T / videoWidth v)
                           (height T / videoHeight v)) as [E | E];
        rewrite E; [left | right]; now apply scale_back.
    + destruct (Qmax_cases (width T / videoWidth v)
                           (height T / videoHeight v)) as [E | E];
        rewrite E; [left | right]; now apply scale_back.
Qed.

Lemma drawRect_same_shape (m : ScaleMode) :
  0 < videoWidth v -> 0 < videoHeight v ->
  width T * videoHeight v == height T * videoWidth v ->
  let r := drawRect m T v in
  x r == 0 /\ y r == 0 /\ w r == width T /\ h r == height T.
Proof.
  intros Hw Hh Hshape r. subst r.
  assert (Hw0 : ~ videoWidth v == 0) by (intro E; rewrite E in Hw; discriminate Hw).
  assert (Hh0 : ~ videoHeight v == 0) by (intro E; rewrite E in Hh; discriminate Hh).
  assert (Hs : width T / videoWidth v == height T / videoHeight v).
  { apply (Qmult_inj_r _ _ (videoWidth v * videoHeight v)).
    - intro E. apply Qmult_integral in E. tauto.
    - transitivity (width T * videoHeight v); [field; exact Hw0 | ].
      rewrite Hshape. field. exact Hh0. }
  assert (Hmin : Qmin (width T / videoWidth v) (height T / videoHeight v)
                 == width T / videoWidth v).
  { apply Q.min_l. rewrite Hs. apply Qle_refl. }
  assert (Hmax : Qmax (width T / videoWidth v) (height T / videoHeight v)
                 == width T / videoWidth v).
  { apply Q.max_l. rewrite Hs. apply Qle_refl. }
  assert (Hww : videoWidth v * (width T / videoWidth v) == width T)
    by now apply scale_back.
  assert (Hhh : videoHeight v * (width T / videoWidth v) == height T)
    by (rewrite Hs; now apply scale_back).
  destruct m; simpl; rewrite ?Hmin, ?Hmax, ?Hww, ?Hhh;
    repeat split; try reflexivity; field.
Qed.

(** X2: When the source has the proportions of the target, the three modes
    agree: each draws the frame over the whole target. *)
Theorem same_shape_fills_target (m : ScaleMode) :
  0 < videoWidth v -> 0 < videoHeight v ->
  width T * videoHeight v == height T * videoWidth v ->
  let r := drawRect m T v in
  x r == 0 /\ y r == 0 /\ w r == width T /\ h r == height T.
Proof. exact (drawRect_same_shape m). Qed.

End Proportions.

Section BackgroundImage.

Open Scope Q_scope.

Context {Img : Type}.
Variables (T : Dimensions Q) (img : Image Q Img).

(** X3: With the arithmetic read exactly, the background image is drawn
    undistorted, centred on the target, and leaves no part of the
    target uncovered. *)
Theorem backgroundRect_covers_target :
  0 < i_width img -> 0 < i_height img ->
  let r := backgroundRect T img in
  w r * i_height img == h r * i_width img /\
  (x r <= 0 /\ width T <= x r + w r) /\
  (y r <= 0 /\ height T <= y r + h r) /\
  x r == width T - (x r + w r) /\ y r == height T - (y r + h r).
Proof.
  intros Hw Hh r. subst r. simpl.
  set (s := Qmax (width T / i_width img) (height T / i_height img)).
  assert (Hcw : width T <= i_width img * s).
  { rewrite <- (scale_back (i_width img) (width T) Hw) at 1.
    apply Qmult_le_l; [exact Hw | apply Q.le_max_l]. }
  assert (Hch : height T <= i_height img * s).
  { rewrite <- (scale_back (i_height img) (height T) Hh) at 1.
    apply Qmult_le_l; [exact Hh | apply Q.le_max_r]. }
  change (inject_Z 2) with 2.
  repeat split; try ring; try field.
  - assert (E : width T / 2 - i_width img / 2 * s
                == (width T - i_width img * s) / 2) by field.
    rewrite E. apply Qle_shift_div_r; [reflexivity | lra].
  - assert (E : width T / 2 - i_width img / 2 * s + i_width img * s
                == (width T + i_width img * s) / 2) by field.
    rewrite E. apply Qle_shift_div_l; [reflexivity | lra].
  - assert (E : height T / 2 - i_height img / 2 * s
                == (height T - i_height img * s) / 2) by field.
    rewrite E. apply Qle_shift_div_r; [reflexivity | lra].
  - assert (E : height T / 2 - i_height img / 2 * s + i_height img * s
                == (height T + i_height img * s) / 2) by field.
    rewrite E. apply Qle_shift_div_l; [reflexivity | lra].
Qed.

End BackgroundImage.

(** ** What a recording session does to the recorders and to the rest *)

Ltac run_controls :=
  unfold exec, operate, toggleMute, handleVolumeChange, generateAnother,
    clickGenerateAnother, handleSeekReset, modifyVideo, bind, ret, get;
  cbn [fst snd setProcessingState setProgress setDownloadUrl
       setRecordingMimeType setAiBgImage setErrorMsg setIsPlaying setVideo
       setRecorders setIsMuted setVolume processingState progress
       downloadUrl recordingMimeType aiBgImage errorMsg isPlaying isMuted
       volume video recorders stateLog progressLog].

Section Sessions.

Context {num : Type} `{JSNumber num} {Img : Type}.

Local Abbreviation Component := (Component num Img).
Local Abbreviation Env := (Env num Img).

Lemma updateNth_same {A} (f : A -> A) (n : nat) (l : list A) :
  (forall a, f a = a) -> updateNth n f l = l.
Proof.
  intros Hf. revert n. induction l as [|a l IH]; intros [|n]; cbn;
    rewrite ?Hf, ?IH; reflexivity.
Qed.

Lemma updateNth_compose {A} (f g : A -> A) (n : nat) (l : list A) :
  updateNth n g (updateNth n f l) = updateNth n (fun a => g (f a)) l.
Proof.
  revert n. induction l as [|a l IH]; intros [|n]; cbn;
    rewrite ?IH; reflexivity.
Qed.

Lemma nth_error_updateNth_other {A} (f : A -> A) (l : list A) (n j : nat) :
  j <> n -> nth_error (updateNth n f l) j = nth_error l j.
Proof.
  revert n j. induction l as [|a l IH]; intros [|n] [|j] Hj; cbn;
    try reflexivity; try contradiction.
  apply IH. congruence.
Qed.

Lemma length_updateNth {A} (f : A -> A) (n : nat) (l : list A) :
  List.length (updateNth n f l) = List.length l.
Proof.
  revert n. induction l as [|a l IH]; intros [|n]; cbn;
    rewrite ?IH; reflexivity.
Qed.

Lemma chunks_pushChunks (bs : list Blob) :
  forall r : Recorder num,
    chunks (pushChunks bs r) = chunks r ++ bs /\
    mimeType (pushChunks bs r) = mimeType r /\
    recording (pushChunks bs r) = recording r /\
    savedVolume (pushChunks bs r) = savedVolume r /\
    savedMuted (pushChunks bs r) = savedMuted r.
Proof.
  induction bs as [|b bs IH]; intros r; cbn.
  - now rewrite app_nil_r.
  - destruct (IH (pushChunk b r)) as (Hc & Hm & Hr & Hv & Hmu).
    unfold pushChunks in *. rewrite Hc, Hm, Hr, Hv, Hmu. cbn.
    now rewrite <- app_assoc.
Qed.

Lemma sessionKeeps_refl (c : Component) : sessionKeeps c c.
Proof. repeat split. Qed.

Lemma sessionKeeps_trans (c c' c'' : Component) :
  sessionKeeps c c' -> sessionKeeps c' c'' -> sessionKeeps c c''.
Proof.
  unfold sessionKeeps. intros (?&?&?&?&?&?&?&?) (?&?&?&?&?&?&?&?).
  repeat split; congruence.
Qed.

(** One event of a session: the recorder [id] gets the data, if there
    is any; nothing else of the recorders and nothing of the audio
    changes. *)
Lemma during_effect (id : nat) (e : SessionEvent) (c : Component) :
  let c' := exec (during id e) c in
  recorders c' = updateNth id (pushChunks (kept [e])) (recorders c) /\
  sessionKeeps c c'.
Proof.
  destruct e as [[b|] | f]; cbn [kept].
  - unfold exec, during, ondataavailable.
    destruct (0 <? size b)%N; run; cbn [pushChunks fold_left].
    + split; [reflexivity | repeat split].
    + split; [ | apply sessionKeeps_refl].
      symmetry. now apply updateNth_same.
  - cbn. split; [ | apply sessionKeeps_refl].
    symmetry. now apply updateNth_same.
  - unfold exec, during, renderLoop, bind, get.
    destruct (negb (ProcessingState_eqb (processingState c) RECORDING)).
    + cbn. split; [ | apply sessionKeeps_refl].
      symmetry. now apply updateNth_same.
    + run. destruct (atEnd f); cbn;
        (split; [symmetry; now apply updateNth_same | repeat split]).
Qed.

Lemma session_cons (id : nat) (e : SessionEvent)
    (rest : list SessionEvent) (c : Component) :
  exec (session id (e :: rest)) c
  = exec (session id rest) (exec (during id e) c).
Proof.
  unfold exec. cbn [session]. unfold bind.
  destruct (during id e c); reflexivity.
Qed.

Lemma session_effect (id : nat) (events : list SessionEvent) :
  forall c : Component,
    let c' := exec (session id events) c in
    recorders c' = updateNth id (pushChunks (kept events)) (recorders c) /\
    sessionKeeps c c'.
Proof.
  induction events as [|e rest IH]; intros c.
  - cbn. split; [ | apply sessionKeeps_refl].
    symmetry. now apply updateNth_same.
  - destruct (during_effect id e c) as [Hr Hk].
    cbv zeta. rewrite session_cons.
    destruct (IH (exec (during id e) c)) as [Hr' Hk']. split.
    + rewrite Hr', Hr, updateNth_compose.
      destruct e as [[b|] | f]; cbn [kept]; try reflexivity.
      destruct (0 <? size b)%N; reflexivity.
    + exact (sessionKeeps_trans _ _ _ Hk Hk').
Qed.

(** X4: The chunks of a recording are kept in the order they arrive: after
    the events of a session the recorder holds what it held, followed by
    the data of the events that carried any, and every other recorder is
    as it was. *)
Theorem session_appends_chunks_in_order (id : nat)
    (events : list SessionEvent) (c : Component) (r : Recorder num) :
  nth_error (recorders c) id = Some r ->
  let c' := exec (session id events) c in
  (exists r',
      nth_error (recorders c') id = Some r' /\
      chunks r' = chunks r ++ kept events /\
      mimeType r' = mimeType r /\ recording r' = recording r) /\
  List.length (recorders c') = List.length (recorders c) /\
  forall j, j <> id ->
    nth_error (recorders c') j = nth_error (recorders c) j.
Proof.
  intros Hr c'. subst c'.
  destruct (session_effect id events c) as [Hrec _]. rewrite Hrec.
  destruct (chunks_pushChunks (kept events) r) as (Hc & Hm & Hrc & _).
  split; [ | split].
  - exists (pushChunks (kept events) r).
    split; [now apply nth_error_updateNth | now repeat split].
  - apply length_updateNth.
  - intros j Hj. now apply nth_error_updateNth_other.
Qed.

(** X5: Frame callbacks and data that arrive when the component is not
    [RECORDING] (after a failure, a finished export or a reset) publish
    no progress and change neither the state, the artifact nor the
    video. *)
Theorem late_events_are_ignored (id : nat) (events : list SessionEvent) :
  forall c : Component,
    processingState c <> RECORDING ->
    let c' := exec (session id events) c in
    processingState c' = processingState c /\
    progress c' = progress c /\ progressLog c' = progressLog c /\
    downloadUrl c' = downloadUrl c /\ errorMsg c' = errorMsg c /\
    video c' = video c.
Proof.
  induction events as [|e rest IH]; intros c Hs; [now repeat split | ].
  cbv zeta. rewrite session_cons.
  set (c1 := exec (during id e) c).
  assert (Hone : processingState c1 = processingState c /\
                 progress c1 = progress c /\
                 progressLog c1 = progressLog c /\
                 downloadUrl c1 = downloadUrl c /\
                 errorMsg c1 = errorMsg c /\
                 video c1 = video c).
  { subst c1. destruct e as [[b|] | f].
    - unfold exec, during, ondataavailable.
      destruct (0 <? size b)%N; run; now repeat split.
    - now repeat split.
    - unfold exec, during, bind, ret.
      rewrite (renderLoop_cancelled f c Hs). now repeat split. }
  destruct Hone as (H1 & H2 & H3 & H4 & H5 & H6).
  assert (Hs1 : processingState c1 <> RECORDING) by congruence.
  destruct (IH c1 Hs1) as (I1 & I2 & I3 & I4 & I5 & I6).
  repeat split; congruence.
Qed.

End Sessions.

(** ** One export, from the click to the artifact or the failure *)

Section Exports.

Context {num : Type} `{JSNumber num} `{JSOrder num} {Img : Type}.

Local Abbreviation Component := (Component num Img).
Local Abbreviation Env := (Env num Img).

Lemma find_first {A} (p : A -> bool) (l : list A) :
  match find p l with
  | Some a =>
      exists before after,
        l = before ++ a :: after /\ p a = true /\
        Forall (fun b => p b = false) before
  | None => Forall (fun b => p b = false) l
  end.
Proof.
  induction l as [|a l IH]; cbn; [constructor | ].
  destruct (p a) eqn:Ha.
  - exists [], l. now repeat split.
  - destruct (find p l) as [b|].
    + destruct IH as (before & after & -> & Hb & Hall).
      exists (a :: before), after. repeat split; auto.
    + now constructor.
Qed.

(** X6: The recorder is asked for the first type of the list the browser
    supports, in the order of the list; when the browser supports none
    of them it is asked for "video/webm" all the same. *)
Theorem selectMimeType_first_supported (env : Env) :
  let selected := selectMimeType env in
  (exists before after,
      mimeTypes = before ++ selected :: after /\
      isTypeSupported env selected = true /\
      Forall (fun t => isTypeSupported env t = false) before) \/
  (Forall (fun t => isTypeSupported env t = false) mimeTypes /\
   selected = "video/webm"%string).
Proof.
  unfold selectMimeType.
  pose proof (find_first (isTypeSupported env) mimeTypes) as Hf.
  destruct (find (isTypeSupported env) mimeTypes) as [t|].
  - left. exact Hf.
  - right. split; [exact Hf | reflexivity].
Qed.

Lemma selectMimeType_listed (env : Env) :
  In (selectMimeType env) mimeTypes.
Proof.
  unfold selectMimeType.
  pose proof (find_first (isTypeSupported env) mimeTypes) as Hf.
  destruct (find (isTypeSupported env) mimeTypes) as [t|].
  - destruct Hf as (before & after & E & _).
    rewrite E. apply in_or_app. right. now left.
  - cbn. tauto.
Qed.

(** What [startProcessing] leaves behind once the recorder is
    constructed, whether playback starts or not. *)
Lemma startProcessing_prepares (config : VideoConfig num) (env : Env)
    (c : Component) :
  refsReady env = true ->
  constructs env = true ->
  generateBackgroundImage env (sentPrompt config) <> NeverLoads ->
  let c' := exec (startProcessing config env) c in
  recordingMimeType c' = selectMimeType env /\
  volume c' = volume c /\ isMuted c' = isMuted c /\
  v_volume (video c') = div (lit 1) (lit 100) /\
  muted (video c') = false /\
  recorders c'
  = recorders c
    ++ [ {| mimeType := selectMimeType env; chunks := [];
            recording := true;
            savedVolume := volume c; savedMuted := isMuted c |} ] /\
  downloadUrl c' = None /\
  processingState c' = (if playFulfils env then RECORDING else IDLE) /\
  errorMsg c'
  = (if playFulfils env then None
     else Some "Could not play video for recording."%string).
Proof.
  intros Hrefs Hnew Hgen. unfold constructs in Hnew.
  destruct c. unfold exec, startProcessing.
  rewrite Hrefs, Hnew. cbn [negb]. run.
  destruct (isContain _ && _ && _ && _);
    [ destruct (negb (truthy (trim (aiPrompt config))));
      [ | destruct (generateBackgroundImage env _); [ | | congruence] ] | ];
    destruct (playFulfils env); cbn -[selectMimeType]; repeat split.
Qed.

(** When the browser supports none of the four types the constructor of
    the recorder throws: the component is left in [RECORDING] without a
    recorder, and the video has not been prepared. *)
Lemma unsupported_type_stops_startProcessing (config : VideoConfig num)
    (env : Env) (c : Component) :
  refsReady env = true ->
  constructs env = false ->
  generateBackgroundImage env (sentPrompt config) <> NeverLoads ->
  let c' := exec (startProcessing config env) c in
  processingState c' = RECORDING /\
  recorders c' = recorders c /\ video c' = video c.
Proof.
  intros Hrefs Hnew Hgen. unfold constructs in Hnew.
  destruct c. unfold exec, startProcessing.
  rewrite Hrefs, Hnew. cbn [negb]. run.
  destruct (isContain _ && _ && _ && _);
    [ destruct (negb (truthy (trim (aiPrompt config))));
      [ | destruct (generateBackgroundImage env _); [ | | congruence] ] | ];
    cbn -[selectMimeType]; repeat split.
Qed.

(** X7: When the browser constructs the recorder (it supports the
    selected type) and then refuses to play the video, the export gives
    up with a message and the button is enabled again, but the recorder
    it has started is left recording, and the video is left unmuted at
    the volume 0.01 while the controls still show the user's
    settings. *)
Theorem failed_playback_leaves_recorder_running
    (config : VideoConfig num) (env : Env) (c : Component) :
  processingState c = IDLE ->
  refsReady env = true ->
  isTypeSupported env (selectMimeType env) = true ->
  playFulfils env = false ->
  generateBackgroundImage env (sentPrompt config) <> NeverLoads ->
  let c' := exec (clickExport config env) c in
  processingState c' = IDLE /\
  errorMsg c' = Some "Could not play video for recording."%string /\
  mainAction c' = ExportButton false /\
  (exists r,
      recorders c' = recorders c ++ [r] /\
      recording r = true /\ chunks r = []) /\
  v_volume (video c') = div (lit 1) (lit 100) /\
  muted (video c') = false /\
  volume c' = volume c /\ isMuted c' = isMuted c.
Proof.
  intros Hidle Hrefs Hnew Hplay Hgen c'. subst c'.
  replace (exec (clickExport config env) c)
    with (exec (startProcessing config env) c)
    by (unfold exec; now rewrite clickExport_idle).
  destruct (startProcessing_prepares config env c Hrefs Hnew Hgen)
    as (_ & Hv & Hm & Hvv & Hvm & Hr & _ & Hs & He).
  rewrite Hplay in Hs, He.
  repeat split; try assumption.
  - unfold mainAction. rewrite Hs. reflexivity.
  - eexists. split; [exact Hr | split; reflexivity].
Qed.

Lemma export_steps (config : VideoConfig num) (env : Env)
    (events : list SessionEvent) (last : option Blob) (c : Component) :
  exec (export config env events last) c
  = exec (stopRecorder (List.length (recorders c)) last)
      (exec (session (List.length (recorders c)) events)
         (exec (clickExport config env) c)).
Proof.
  unfold export, exec, bind, get. cbv beta iota zeta.
  destruct (clickExport config env c) as [u1 c1]. cbn [snd].
  destruct (session _ events c1) as [u2 c2]. reflexivity.
Qed.

(** [stopRecorder] on a recorder that records: what it keeps, and the
    video in its two outcomes. *)
Lemma stopRecorder_keeps (id : nat) (last : option Blob)
    (c : Component) (r : Recorder num) :
  nth_error (recorders c) id = Some r ->
  recording r = true ->
  let total := (bytes (chunks r) + delivered last)%N in
  let c' := exec (stopRecorder id last) c in
  volume c' = volume c /\ isMuted c' = isMuted c /\
  recordingMimeType c' = recordingMimeType c /\
  List.length (recorders c') = List.length (recorders c) /\
  duration (video c') = duration (video c) /\
  (total = 0%N -> video c' = video c) /\
  (total <> 0%N ->
     isFinite (div (duration (video c)) (lit 2)) = true ->
     v_volume (video c') = savedVolume r /\
     muted (video c') = savedMuted r).
Proof.
  intros Hr Hrec total c'. subst c'.
  set (c1 := snd (setRecorders (updateNth id stopped (recorders c)) c)).
  assert (Hrun : exec (stopRecorder id last) c
                 = exec (onstop id) (exec (ondataavailable id last) c1)).
  { unfold c1, exec, stopRecorder, bind, get. cbv beta iota zeta.
    rewrite Hr, Hrec. cbn [setRecorders snd].
    destruct (ondataavailable id last _); reflexivity. }
  rewrite Hrun.
  assert (H1 : nth_error (recorders c1) id = Some (stopped r))
    by (now apply nth_error_updateNth).
  destruct (during_effect id (DataAvailable last) c1) as [Hrec2 Hk].
  cbn [during] in Hrec2, Hk.
  set (c2 := exec (ondataavailable id last) c1) in *.
  destruct Hk as (Kv & Km & Kt & _ & _ & Kvv & Kvm & _).
  destruct (ondataavailable_step id last c1) as (_ & _ & _ & _ & _ & Hn).
  fold c2 in Hn.
  destruct (Hn _ H1) as (r2 & H2 & _ & _ & Hsv & Hsm & Hb).
  cbn [stopped savedVolume savedMuted chunks] in Hsv, Hsm, Hb.
  fold total in Hb.
  assert (Hlen : List.length (recorders c2) = List.length (recorders c)).
  { rewrite Hrec2. unfold c1. cbn [setRecorders snd recorders].
    now rewrite !length_updateNth. }
  assert (Hvid : video c2 = video c).
  { unfold c2, exec, ondataavailable.
    destruct last as [b|]; [destruct (0 <? size b)%N | ]; reflexivity. }
  unfold exec, onstop, bind, get. cbv beta iota zeta.
  rewrite H2. unfold newBlob. cbn [size]. fold (bytes (chunks r2)).
  rewrite Hb, Hvid.
  destruct (N.eqb_spec total 0) as [E|E];
    [ cbn; repeat split; try assumption; try contradiction;
      try congruence | ].
  cbn [setDownloadUrl setProcessingState snd video].
  destruct (isFinite (div (duration (video c)) (lit 2)));
    cbn; repeat split; intros; try assumption; try contradiction;
    try discriminate; try congruence.
Qed.

Section OneExport.

Variables (config : VideoConfig num) (env : Env) (c : Component).
Variables (events : list (SessionEvent (num := num))).
Variable last : option Blob.

Hypothesis idle : processingState c = IDLE.
Hypothesis refs : refsReady env = true.
Hypothesis plays : playStarts env = true.
Hypothesis generation :
  generateBackgroundImage env (sentPrompt config) <> NeverLoads.

(** Both outcomes of an export, with the audio and the recorded
    type. *)
Lemma export_outcome :
  let total := (captured events + delivered last)%N in
  let c' := exec (export config env events last) c in
  (volume c' = volume c /\ isMuted c' = isMuted c /\
   recordingMimeType c' = selectMimeType env /\
   duration (video c') = duration (video c) /\
   List.length (recorders c') = S (List.length (recorders c))) /\
  (total = 0%N ->
     processingState c' = IDLE /\ errorMsg c' = Some zeroBytes /\
     downloadUrl c' = None /\
     v_volume (video c') = div (lit 1) (lit 100) /\
     muted (video c') = false) /\
  (total <> 0%N ->
     processingState c' = COMPLETED /\
     downloadUrl c'
     = Some {| size := total; type := selectMimeType env |} /\
     (isFinite (div (duration (video c)) (lit 2)) = true ->
      v_volume (video c') = volume c /\
      muted (video c') = isMuted c)).
Proof.
  cbv zeta. rewrite export_steps.
  replace (exec (clickExport config env) c)
    with (exec (startProcessing config env) c)
    by (unfold exec; now rewrite clickExport_idle).
  assert (Hnew : constructs env = true)
    by (apply andb_prop in plays; apply plays).
  destruct (startProcessing_prepares config env c refs Hnew generation)
    as (Pt & Pv & Pm & Pvv & Pvm & Pr & Pu & _ & _).
  destruct (startProcessing_records config env c refs plays generation)
    as (_ & _ & _ & _ & Pd & _).
  set (c1 := exec (startProcessing config env) c) in *.
  set (id := List.length (recorders c)) in *.
  destruct (session_effect id events c1)
    as (Sr & Sv & Sm & St & _ & _ & Svv & Svm & _).
  destruct (session_steps id events c1)
    as (_ & Su & _ & _ & Sd & Sn).
  set (c2 := exec (session id events) c1) in *.
  assert (Hnth : nth_error (recorders c1) id
                 = Some {| mimeType := selectMimeType env; chunks := [];
                           recording := true; savedVolume := volume c;
                           savedMuted := isMuted c |}).
  { rewrite Pr. unfold id.
    rewrite nth_error_app2, Nat.sub_diag by apply Nat.le_refl.
    reflexivity. }
  destruct (Sn _ Hnth) as (r & Hr & Hm & Hrec & Hsv & Hsm & Hb).
  cbn in Hm, Hrec, Hsv, Hsm, Hb.
  destruct (stopRecorder_keeps id last c2 r Hr Hrec)
    as (Kv & Km & Kt & Kl & Kd & Kzero & Kdone).
  destruct (stopRecorder_outcome id last c2 r Hr Hrec)
    as [Ozero Odone].
  rewrite Hb in Kzero, Kdone, Ozero, Odone.
  split; [ | split].
  - repeat split; try congruence.
    rewrite Kl, Sr, length_updateNth, Pr, length_app. cbn.
    unfold id. now rewrite Nat.add_1_r.
  - intros E. destruct (Ozero E) as (Os & Oe & Ou & _).
    rewrite (Kzero E). repeat split; congruence.
  - intros E. destruct (Odone E) as (Os & Ou & _).
    split; [congruence | split; [congruence | ]].
    intros Hfinite. rewrite <- Pd, <- Sd in Hfinite.
    destruct (Kdone E Hfinite) as (Ov & Omu). split; congruence.
Qed.

(** X8: An export never changes the volume and the mute switch the
    controls show.  When it produces an artifact (and the midpoint of
    the video is a time the video accepts) the video is left at that
    volume and mute state; when it fails on zero bytes the video is
    left unmuted at the volume 0.01. *)
Theorem export_keeps_settings_and_audio :
  let c' := exec (export config env events last) c in
  (volume c' = volume c /\ isMuted c' = isMuted c) /\
  ((captured events + delivered last <> 0)%N ->
   isFinite (div (duration (video c)) (lit 2)) = true ->
   audioInSync c') /\
  ((captured events + delivered last = 0)%N ->
   v_volume (video c') = div (lit 1) (lit 100) /\
   muted (video c') = false).
Proof.
  destruct export_outcome as ((Hv & Hm & _) & Hzero & Hdone).
  cbv zeta. split; [now split | split].
  - intros E Hfinite. destruct (Hdone E) as (_ & _ & Hrestored).
    destruct (Hrestored Hfinite) as (Hvv & Hvm).
    unfold audioInSync. split; congruence.
  - intros E. destruct (Hzero E) as (_ & _ & _ & Hvv & Hvm).
    now split.
Qed.

Lemma includes_mp4 (t : string) :
  In t mimeTypes ->
  includes t "mp4" = (t =? "video/mp4")%string.
Proof.
  cbn. intros [<- | [<- | [<- | [<- | []]]]]; vm_compute; reflexivity.
Qed.

(** X9: The download link of a finished export points to the artifact, the
    artifact has the type the recorder was asked for, and the file name
    ends in "mp4" when that type is "video/mp4" and in "webm" for the
    three WebM types. *)
Theorem download_name_matches_recorded_type :
  (captured events + delivered last <> 0)%N ->
  let c' := exec (export config env events last) c in
  exists blob,
    mainAction c' = DownloadLink blob /\
    type blob = selectMimeType env /\
    recordingMimeType c' = type blob /\
    downloadName c'
    = (if (type blob =? "video/mp4")%string
       then "resized-video-pro.mp4" else "resized-video-pro.webm")%string.
Proof.
  intros E. destruct export_outcome as ((_ & _ & Ht & _) & _ & Hdone).
  destruct (Hdone E) as (Hs & Hu & _). cbv zeta.
  eexists. split; [ | split; [ | split]].
  - unfold mainAction. rewrite Hs, Hu. reflexivity.
  - reflexivity.
  - exact Ht.
  - unfold downloadName, fileExtension. rewrite Ht. cbn [type].
    rewrite (includes_mp4 _ (selectMimeType_listed env)).
    destruct (selectMimeType env =? "video/mp4")%string; reflexivity.
Qed.

End OneExport.

Lemma operateAll_cons (k : Control) (ks : list Control) (c : Component) :
  exec (operateAll (k :: ks)) c = exec (operateAll ks) (exec (operate k) c).
Proof.
  unfold exec. cbn [operateAll]. unfold bind at 1.
  destruct (operate k c); reflexivity.
Qed.

Lemma operateAll_disabled (ks : list Control) (c : Component) :
  isProcessing c = true -> exec (operateAll ks) c = c.
Proof.
  intros Hp. induction ks as [|k ks IH]; [reflexivity | ].
  rewrite operateAll_cons.
  replace (exec (operate k) c) with c; [exact IH | ].
  unfold exec, operate, bind, get. now rewrite Hp.
Qed.

(** X10: The button "generate another" after a finished export brings the
    page back to [IDLE] with the export button enabled, no artifact and
    the progress at 0; the next export is a recording of its own: its
    artifact holds the bytes of the second session only. *)
Theorem second_export_is_independent
    (config : VideoConfig num) (env : Env) (c : Component)
    (events1 events2 : list SessionEvent) (last1 last2 : option Blob) :
  processingState c = IDLE ->
  refsReady env = true ->
  playStarts env = true ->
  generateBackgroundImage env (sentPrompt config) <> NeverLoads ->
  (captured events1 + delivered last1 <> 0)%N ->
  let c1 := exec (export config env events1 last1) c in
  let c2 := exec clickGenerateAnother c1 in
  let c3 := exec (export config env events2 last2) c2 in
  (processingState c2 = IDLE /\ downloadUrl c2 = None /\
   progress c2 = lit 0 /\ mainAction c2 = ExportButton false) /\
  ((captured events2 + delivered last2 <> 0)%N ->
   processingState c3 = COMPLETED /\
   downloadUrl c3
   = Some {| size := captured events2 + delivered last2;
             type := selectMimeType env |}) /\
  ((captured events2 + delivered last2 = 0)%N ->
   processingState c3 = IDLE /\ downloadUrl c3 = None /\
   errorMsg c3 = Some zeroBytes).
Proof.
  intros Hidle Hrefs Hplay Hgen Hsome c1 c2 c3.
  destruct (export_outcome config env c events1 last1
              Hidle Hrefs Hplay Hgen) as (_ & _ & Hdone).
  destruct (Hdone Hsome) as (Hs1 & _). fold c1 in Hs1.
  assert (Hreset : processingState c2 = IDLE /\ downloadUrl c2 = None /\
                   progress c2 = lit 0).
  { unfold c2, exec, clickGenerateAnother, bind, get. rewrite Hs1.
    cbn [ProcessingState_eqb]. run_controls. now repeat split. }
  destruct Hreset as (Hs2 & Hu2 & Hp2).
  destruct (export_outcome config env c2 events2 last2
              Hs2 Hrefs Hplay Hgen) as (_ & Hzero3 & Hdone3).
  fold c3 in Hzero3, Hdone3.
  split; [ | split].
  - repeat split; try assumption.
    unfold mainAction. rewrite Hs2. reflexivity.
  - intros E. destruct (Hdone3 E) as (? & ? & _). now split.
  - intros E. destruct (Hzero3 E) as (? & ? & ? & _). now repeat split.
Qed.


Lemma operate_effect (k : Control) (c : Component) :
  let c' := exec (operate k) c in
  (withinRange k = true -> audioInSync c -> audioInSync c') /\
  processingState c' = processingState c /\
  downloadUrl c' = downloadUrl c /\
  recorders c' = recorders c.
Proof.
  unfold exec, operate, bind, get.
  destruct (isProcessing c);
    [split; [intros _ Hs; exact Hs | now repeat split] | ].
  destruct k as [ | x | ]; cbn [withinRange].
  - run_controls.
    split; [intros _ [Hv Hm]; split; [exact Hv | reflexivity]
           | now repeat split].
  - unfold handleVolumeChange, bind, get. cbn [setVolume fst snd].
    cbn [isMuted].
    destruct (validVolume x);
      [ destruct (isMuted c && lt (lit 0) x) | ];
      run_controls;
      (split; [intros Hk [Hv Hm]; try discriminate Hk;
               split; cbn; solve [reflexivity | assumption]
              | now repeat split]).
  - run_controls.
    split; [intros _ [Hv Hm]; split; assumption | now repeat split].
Qed.

(** X12: The mute button, the volume slider and the skip-back button
    touch neither the state of the export, the artifact nor the
    recorders; when the slider hands over values within its range they
    keep the video at the volume and mute state the controls show;
    and while the component is processing (recording or generating)
    they do nothing at all. *)
Theorem controls_keep_audio_in_sync (ks : list Control) :
  forall c : Component,
    let c' := exec (operateAll ks) c in
    (forallb withinRange ks = true -> audioInSync c -> audioInSync c') /\
    (processingState c' = processingState c /\
     downloadUrl c' = downloadUrl c /\
     recorders c' = recorders c) /\
    (isProcessing c = true -> c' = c).
Proof.
  intros c. cbv zeta. split; [ | split].
  - revert c. induction ks as [|k ks IH]; intros c Hrange Hsync;
      [exact Hsync | ].
    cbn [forallb] in Hrange. apply andb_prop in Hrange as [Hk Hks].
    rewrite operateAll_cons. apply IH; [exact Hks | ].
    now apply (operate_effect k c).
  - revert c. induction ks as [|k ks IH]; intros c; [now repeat split | ].
    rewrite operateAll_cons.
    destruct (operate_effect k c) as (_ & Hs & Hu & Hr).
    destruct (IH (exec (operate k) c)) as (Is & Iu & Ir).
    repeat split; congruence.
  - apply operateAll_disabled.
Qed.

End Exports.

(** ** The application: pasted files and settings *)

Section ApplicationProperties.

Context {num : Type} `{JSNumber num}.

(** X13: A paste that was not typed into an input and whose first file
    has a video type and loadable metadata replaces the file by that
    first file, clears the paste error, sets the custom dimensions to
    those of the video and turns the lock on, leaving the rest of the
    configuration alone.  That is the only case in which a paste
    changes the file or the configuration. *)
Theorem paste_replaces_file_only_by_a_loadable_video
    (probe : Metadata num) (e : PasteEvent) (a : App num) :
  let a' := handlePaste probe e a in
  (forall f rest n vw vh,
      (targetTag e =? "INPUT")%string = false ->
      clipboardData e = Some {| files := f :: rest; items := n |} ->
      String.prefix "video/" (fileType f) = true ->
      probe f = Some (vw, vh) ->
      file a' = Some f /\ pasteError a' = None /\
      customWidth (config a') = Some vw /\
      customHeight (config a') = Some vh /\
      maintainAspectRatio (config a') = Some true /\
      aspectRatio (config a') = aspectRatio (config a) /\
      scaleMode (config a') = scaleMode (config a) /\
      backgroundColor (config a') = backgroundColor (config a) /\
      useAIBackground (config a') = useAIBackground (config a) /\
      aiPrompt (config a') = aiPrompt (config a)) /\
  ((file a' = file a /\ config a' = config a) \/
   (exists f rest n vw vh,
       (targetTag e =? "INPUT")%string = false /\
       clipboardData e = Some {| files := f :: rest; items := n |} /\
       String.prefix "video/" (fileType f) = true /\
       probe f = Some (vw, vh))).
Proof.
  cbv zeta. split.
  - intros f rest n vw vh Htag Hcb Hty Hp.
    unfold handlePaste, processAndSetFile.
    rewrite Htag, Hcb, Hty, Hp. now repeat split.
  - unfold handlePaste.
    destruct (targetTag e =? "INPUT")%string eqn:Htag; [now left | ].
    destruct (clipboardData e) as [[[|f rest] n] | ] eqn:Hcb.
    + left. destruct (file a) eqn:Hfile; [ | destruct n]; now split.
    + destruct (String.prefix "video/" (fileType f)) eqn:Hty;
        [ | now left].
      unfold processAndSetFile.
      destruct (probe f) as [[vw vh] | ] eqn:Hp; [ | now left].
      right. exists f, rest, n, vw, vh. now repeat split.
    + left. destruct (file a) eqn:Hfile; now split.
Qed.

Lemma applySetting_background (c : VideoConfig num) (s : Setting num) :
  plainBackground c -> plainBackground (applySetting c s).
Proof.
  intros Hc. destruct s as [r | m | [|] v | videoRef [|] v | b | vw vh | ];
    cbn; try exact Hc; try (now repeat split).
  - unfold handleCustomDimensionChange.
    destruct (isNaN v); [exact Hc | ].
    destruct (maintainAspectRatio c) as [[|]|], videoRef; exact Hc.
  - unfold handleCustomDimensionChange.
    destruct (isNaN v); [exact Hc | ].
    destruct (maintainAspectRatio c) as [[|]|], videoRef; exact Hc.
Qed.

Lemma configured_background (settings : list (Setting num)) :
  plainBackground (configured settings).
Proof.
  unfold configured.
  assert (Hgen : forall c, plainBackground c ->
                   plainBackground (fold_left applySetting settings c)).
  { induction settings as [|s rest IH]; intros c Hc; [exact Hc | ].
    cbn. apply IH. now apply applySetting_background. }
  apply Hgen. now repeat split.
Qed.

(** X14: No series of settings on the two screens (presets, modes, custom
    dimensions, the lock, loading a file, the reset) turns the AI
    background on or changes the background colour or the prompt: they
    stay as [App] starts them. *)
Theorem settings_never_touch_the_background
    (settings : list (Setting num)) :
  let c := configured settings in
  useAIBackground c = false /\
  backgroundColor c = "#000000"%string /\
  aiPrompt c = "Cosmic nebula with purple and blue hues"%string.
Proof. exact (configured_background settings). Qed.

Section NoGeneration.

Context {Pix Img : Type} `{Canvas2D num Pix Img}.

(** X15: Under a configuration reached through the settings, an export
    never asks for a background image (the state never passes through
    [GENERATING_BACKGROUND], whatever the image service would answer)
    and [drawFrame] never draws one, even if the component holds an
    image. *)
Theorem settings_never_reach_the_ai_background
    (settings : list (Setting num)) :
  let config := configured settings in
  (forall (env : Env num Img) (c : Component num Img),
      let c' := exec (startProcessing config env) c in
      aiBgImage c' = aiBgImage c /\
      exists trail,
        stateLog c' = stateLog c ++ trail /\
        ~ In GENERATING_BACKGROUND trail) /\
  (forall (img : Image num Img) (ctx : Context2D num Pix),
      drawBackground config (Some img) ctx
      = drawBackground config None ctx).
Proof.
  destruct (configured_background settings) as (Hai & _).
  cbv zeta. split.
  - intros env c. destruct c. unfold exec, startProcessing.
    destruct (refsReady env); cbn [negb].
    + run. rewrite Hai, !andb_false_r, andb_false_l.
      destruct (isTypeSupported env (selectMimeType env));
        [destruct (playFulfils env) | ];
        cbn -[selectMimeType]; split; try reflexivity.
      * exists [RECORDING]. split; [reflexivity | ].
        cbn. intuition discriminate.
      * exists [RECORDING; IDLE]. split; [now rewrite <- app_assoc | ].
        cbn. intuition discriminate.
      * exists [RECORDING]. split; [reflexivity | ].
        cbn. intuition discriminate.
    + cbn. split; [reflexivity | ]. exists []. split; [ | tauto].
      now rewrite app_nil_r.
  - intros img ctx. unfold drawBackground. rewrite Hai. reflexivity.
Qed.

End NoGeneration.

End ApplicationProperties.

Section LoadedFile.

Open Scope Q_scope.

(** X16: After a file is loaded, the [CUSTOM] preset is the size of the
    video: the target has the video's dimensions and, with the
    arithmetic read exactly, every mode draws the frame over the whole
    target. *)
Theorem custom_after_load_is_the_source_size
    (c : VideoConfig Q) (vid : Video Q) (m : ScaleMode) :
  0 < videoWidth vid -> 0 < videoHeight vid ->
  let config :=
    set_scaleMode
      (set_aspectRatio
         (applySetting c (LoadFile (videoWidth vid) (videoHeight vid)))
         CUSTOM) m in
  getTargetDimensions config
  = {| width := videoWidth vid; height := videoHeight vid |} /\
  let r := drawRect (scaleMode config) (getTargetDimensions config) vid in
  x r == 0 /\ y r == 0 /\
  w r == videoWidth vid /\ h r == videoHeight vid.
Proof.
  intros Hw Hh config.
  assert (Hfw : falsy (videoWidth vid) = false).
  { cbn. destruct (Qeq_bool (videoWidth vid) 0) eqn:E; [ | reflexivity].
    apply Qeq_bool_eq in E. rewrite E in Hw. discriminate Hw. }
  assert (Hfh : falsy (videoHeight vid) = false).
  { cbn. destruct (Qeq_bool (videoHeight vid) 0) eqn:E; [ | reflexivity].
    apply Qeq_bool_eq in E. rewrite E in Hh. discriminate Hh. }
  assert (Hdim : getTargetDimensions config
                 = {| width := videoWidth vid;
                      height := videoHeight vid |}).
  { unfold config, getTargetDimensions. cbn [set_scaleMode set_aspectRatio
      aspectRatio RESOLUTIONS customWidth customHeight applySetting
      set_maintainAspectRatio set_customHeight set_customWidth].
    now rewrite (or_else_keeps _ _ Hfw), (or_else_keeps _ _ Hfh). }
  split; [exact Hdim | ].
  rewrite Hdim.
  apply (drawRect_same_shape
           {| width := videoWidth vid; height := videoHeight vid |} vid
           (scaleMode config) Hw Hh).
  cbn [width height]. apply Qmult_comm.
Qed.

End LoadedFile.

(** ** The image service *)

Section ImageService.

Import GeminiService.

Lemma extractImage_none (parts : list Part) :
  extractImage parts = None <-> Forall (fun p => hasData p = None) parts.
Proof.
  induction parts as [|p rest IH]; cbn; [split; auto | ].
  destruct (hasData p) as [[d s]|] eqn:E.
  - split; [discriminate | ]. intros Hall. inversion Hall; congruence.
  - rewrite IH. split; [now constructor | ].
    intros Hall. now inversion Hall.
Qed.

(** X17: The image service fails exactly when there is no API key, the call
    to the model rejects, or the answer has no part with image data. *)
Theorem generateBackgroundImage_fails_exactly
    (apiKey : string) (reply : Reply) :
  GeminiService.generateBackgroundImage apiKey reply = None <->
  apiKey = ""%string \/
  match reply with
  | CallRejects => True
  | Answer None => True
  | Answer (Some parts) => Forall (fun p => hasData p = None) parts
  end.
Proof.
  unfold GeminiService.generateBackgroundImage.
  destruct apiKey as [|ch key]; cbn [truthy negb]; [tauto | ].
  destruct reply as [ | [parts|]].
  - tauto.
  - rewrite extractImage_none. split; [tauto | ].
    intros [E | Hall]; [discriminate E | exact Hall].
  - tauto.
Qed.

(** X18: With an API key, the answer's first part that carries image data
    decides the result, whatever follows it: a data URL of that data
    under the part's MIME type, or under "image/png" when the part
    names none. *)
Theorem generateBackgroundImage_first_image_wins
    (apiKey : string) (skipped rest : list Part) (p : Part)
    (d : InlineData) (s : string) :
  apiKey <> ""%string ->
  Forall (fun q => hasData q = None) skipped ->
  hasData p = Some (d, s) ->
  GeminiService.generateBackgroundImage apiKey
    (Answer (Some (skipped ++ p :: rest)))
  = Some ("data:"
          ++ match GeminiService.mimeType d with
             | Some t => if truthy t then t else "image/png"
             | None => "image/png"
             end
          ++ ";base64," ++ s)%string.
Proof.
  intros Hkey Hskip Hp. unfold GeminiService.generateBackgroundImage.
  destruct apiKey as [|ch key]; [congruence | ]. cbn [truthy negb].
  induction Hskip as [|q skipped Hq Hskip IH]; cbn.
  - rewrite Hp. reflexivity.
  - rewrite Hq. exact IH.
Qed.

End ImageService.

(** ** The compositor under the application's configurations *)

Section CompositorOnSettings.

Context {num : Type} `{JSNumber num}.
Context {Pix Img : Type} `{Canvas2D num Pix Img}.


End CompositorOnSettings.


(** ** The properties on concrete inputs *)

Lemma scaled_rect_undistorted_and_tight_witness :
  let r := drawRect CONTAIN (Scenario.target 1080 1920)
             (Scenario.clip 1920 1080 : Video Q) in
  (w r == inject_Z 1080 \/ h r == inject_Z 1920)%Q.
Proof.
  exact (proj2 (scaled_rect_undistorted_and_tight
    (Scenario.target 1080 1920) (Scenario.clip 1920 1080) CONTAIN
    eq_refl eq_refl ltac:(discriminate))).
Defined.

Lemma same_shape_fills_target_witness :
  let r := drawRect COVER (Scenario.target 1920 1080)
             (Scenario.clip 1280 720 : Video Q) in
  (x r == 0 /\ y r == 0 /\ w r == inject_Z 1920 /\ h r == inject_Z 1080)%Q.
Proof.
  exact (same_shape_fills_target
    (Scenario.target 1920 1080) (Scenario.clip 1280 720) COVER
    eq_refl eq_refl eq_refl).
Defined.

Lemma backgroundRect_covers_target_witness :
  let r := backgroundRect (Scenario.target 1080 1920)
             (Cases.texture : Image Q unit) in
  (x r <= 0 /\ inject_Z 1080 <= x r + w r)%Q.
Proof.
  exact (proj1 (proj2 (backgroundRect_covers_target
    (Scenario.target 1080 1920) Cases.texture eq_refl eq_refl))).
Defined.

Lemma session_appends_chunks_in_order_witness :
  let c : Component float unit :=
    exec (clickExport (Scenario.preset SQUARE COVER false) Scenario.browser)
      (Scenario.mounted (Scenario.clip 1920 1080)) in
  let c' :=
    exec (session 0
            [DataAvailable (Scenario.chunk 4096);
             FrameCallback (Scenario.frame 5 false);
             DataAvailable (Scenario.chunk 0);
             DataAvailable None;
             DataAvailable (Scenario.chunk 512)]) c in
  List.length (recorders c') = List.length (recorders c).
Proof.
  exact (proj1 (proj2 (session_appends_chunks_in_order 0
    [DataAvailable (Scenario.chunk 4096);
     FrameCallback (Scenario.frame 5 false);
     DataAvailable (Scenario.chunk 0);
     DataAvailable None;
     DataAvailable (Scenario.chunk 512)]
    (exec (clickExport (Scenario.preset SQUARE COVER false) Scenario.browser)
       (Scenario.mounted (Scenario.clip 1920 1080) : Component float unit))
    {| mimeType := "video/webm"; chunks := []; recording := true;
       savedVolume := 1%float; savedMuted := false |}
    eq_refl))).
Defined.

Lemma late_events_are_ignored_witness :
  let c : Component float unit := Scenario.mounted (Scenario.clip 1920 1080) in
  progress
    (exec (session 0 [FrameCallback (Scenario.frame 5 false);
                      DataAvailable (Scenario.chunk 4096)]) c)
  = progress c.
Proof.
  exact (proj1 (proj2 (late_events_are_ignored 0
    [FrameCallback (Scenario.frame 5 false);
     DataAvailable (Scenario.chunk 4096)]
    (Scenario.mounted (Scenario.clip 1920 1080) : Component float unit)
    ltac:(cbn; discriminate)))).
Defined.

Lemma failed_playback_leaves_recorder_running_witness :
  let c' : Component float unit :=
    exec (clickExport (Scenario.preset SQUARE COVER false) Cases.refusing)
      (Scenario.mounted (Scenario.clip 1920 1080)) in
  processingState c' = IDLE.
Proof.
  exact (proj1 (failed_playback_leaves_recorder_running
    (Scenario.preset SQUARE COVER false) Cases.refusing
    (Scenario.mounted (Scenario.clip 1920 1080) : Component float unit)
    eq_refl eq_refl eq_refl eq_refl ltac:(cbn; discriminate))).
Defined.

Lemma export_keeps_settings_and_audio_witness :
  let c : Component float unit := Scenario.mounted (Scenario.clip 1920 1080) in
  let c' :=
    exec (export (Scenario.preset SQUARE COVER false) Scenario.browser
            [FrameCallback (Scenario.frame 5 false);
             DataAvailable (Scenario.chunk 4096);
             FrameCallback (Scenario.frame 10 true)] (Scenario.chunk 100))
      c in
  volume c' = volume c /\ isMuted c' = isMuted c.
Proof.
  exact (proj1 (export_keeps_settings_and_audio
    (Scenario.preset SQUARE COVER false) Scenario.browser
    (Scenario.mounted (Scenario.clip 1920 1080) : Component float unit)
    [FrameCallback (Scenario.frame 5 false);
     DataAvailable (Scenario.chunk 4096);
     FrameCallback (Scenario.frame 10 true)] (Scenario.chunk 100)
    eq_refl eq_refl eq_refl ltac:(cbn; discriminate))).
Defined.

Lemma download_name_matches_recorded_type_witness :
  let c' : Component float unit :=
    exec (export (Scenario.preset SQUARE COVER false) Cases.safari
            [DataAvailable (Scenario.chunk 4096);
             FrameCallback (Scenario.frame 10 true)] None)
      (Scenario.mounted (Scenario.clip 1920 1080)) in
  exists blob,
    mainAction c' = DownloadLink blob /\
    type blob = selectMimeType (Cases.safari : Env float unit) /\
    recordingMimeType c' = type blob /\
    downloadName c'
    = (if (type blob =? "video/mp4")%string
       then "resized-video-pro.mp4" else "resized-video-pro.webm")%string.
Proof.
  exact (download_name_matches_recorded_type
    (Scenario.preset SQUARE COVER false) Cases.safari
    (Scenario.mounted (Scenario.clip 1920 1080) : Component float unit)
    [DataAvailable (Scenario.chunk 4096);
     FrameCallback (Scenario.frame 10 true)] None
    eq_refl eq_refl eq_refl ltac:(cbn; discriminate)
    ltac:(cbn; discriminate)).
Defined.

Lemma second_export_is_independent_witness :
  let c1 : Component float unit :=
    exec (export (Scenario.preset SQUARE COVER false) Scenario.browser
            [DataAvailable (Scenario.chunk 4096)] (Scenario.chunk 100))
      (Scenario.mounted (Scenario.clip 1920 1080)) in
  let c2 := exec clickGenerateAnother c1 in
  processingState c2 = IDLE /\ downloadUrl c2 = None /\
  progress c2 = 0%float /\ mainAction c2 = ExportButton false.
Proof.
  exact (proj1 (second_export_is_independent
    (Scenario.preset SQUARE COVER false) Scenario.browser
    (Scenario.mounted (Scenario.clip 1920 1080) : Component float unit)
    [DataAvailable (Scenario.chunk 4096)]
    [DataAvailable (Scenario.chunk 7)]
    (Scenario.chunk 100) None
    eq_refl eq_refl eq_refl ltac:(cbn; discriminate)
    ltac:(cbn; discriminate))).
Defined.


Lemma controls_keep_audio_in_sync_witness :
  let c : Component float unit := Scenario.mounted (Scenario.clip 1920 1080) in
  let busy : Component float unit :=
    exec (clickExport (Scenario.preset SQUARE COVER false) Scenario.browser)
      c in
  audioInSync
    (exec (operateAll [MuteButton; VolumeSlider 0.5%float; SkipBack;
                       VolumeSlider 0%float; MuteButton]) c) /\
  exec (operateAll [MuteButton; VolumeSlider 0.5%float; SkipBack]) busy
  = busy.
Proof.
  exact (conj
    (proj1 (controls_keep_audio_in_sync
       [MuteButton; VolumeSlider 0.5%float; SkipBack;
        VolumeSlider 0%float; MuteButton]
       (Scenario.mounted (Scenario.clip 1920 1080) : Component float unit))
       eq_refl (conj eq_refl eq_refl))
    (proj2 (proj2 (controls_keep_audio_in_sync
       [MuteButton; VolumeSlider 0.5%float; SkipBack]
       (exec (clickExport (Scenario.preset SQUARE COVER false)
                Scenario.browser)
          (Scenario.mounted (Scenario.clip 1920 1080)
           : Component float unit))))
       eq_refl)).
Defined.

Lemma paste_replaces_file_only_by_a_loadable_video_witness :
  let clip := {| fileName := "clip.mp4"; fileType := "video/mp4" |} in
  let a' :=
    handlePaste (fun _ => Some (1280%float, 720%float))
      {| targetTag := "BODY";
         clipboardData :=
           Some {| files := [clip; {| fileName := "notes.txt";
                                      fileType := "text/plain" |}];
                   items := 2 |} |}
      (initialApp : App float) in
  file a' = Some clip /\
  customWidth (config a') = Some 1280%float /\
  customHeight (config a') = Some 720%float.
Proof.
  intros clip a'.
  destruct (proj1 (paste_replaces_file_only_by_a_loadable_video
    (fun _ => Some (1280%float, 720%float))
    {| targetTag := "BODY";
       clipboardData :=
         Some {| files := [clip; {| fileName := "notes.txt";
                                    fileType := "text/plain" |}];
                 items := 2 |} |}
    (initialApp : App float))
    clip [{| fileName := "notes.txt"; fileType := "text/plain" |}] 2%nat
    1280%float 720%float eq_refl eq_refl eq_refl eq_refl)
    as (Hf & _ & Hw & Hh & _).
  exact (conj Hf (conj Hw Hh)).
Defined.

Lemma custom_after_load_is_the_source_size_witness :
  getTargetDimensions
    (set_scaleMode
       (set_aspectRatio
          (applySetting (initialConfig : VideoConfig Q)
             (LoadFile (inject_Z 1280) (inject_Z 720))) CUSTOM) COVER)
  = {| width := inject_Z 1280; height := inject_Z 720 |}.
Proof.
  exact (proj1 (custom_after_load_is_the_source_size
    initialConfig (Scenario.clip 1280 720) COVER eq_refl eq_refl)).
Defined.

Lemma generateBackgroundImage_first_image_wins_witness :
  GeminiService.generateBackgroundImage "key"
    (GeminiService.Answer
       (Some [Cases.textPart; Cases.imagePart; Cases.textPart]))
  = Some "data:image/png;base64,iVBORw0KGgo="%string.
Proof.
  exact (generateBackgroundImage_first_image_wins "key"
    [Cases.textPart] [Cases.textPart] Cases.imagePart
    {| GeminiService.mimeType := None;
       GeminiService.data := Some "iVBORw0KGgo="%string |}
    "iVBORw0KGgo=" ltac:(discriminate)
    (Forall_cons Cases.textPart
       (eq_refl : GeminiService.hasData Cases.textPart = None)
       (Forall_nil _))
    eq_refl).
Defined.

(** ** The states the component goes through *)

Section States.

Context {num : Type} `{JSNumber num} `{JSOrder num} {Img : Type}.

Local Abbreviation Component := (Component num Img).









End States.

